(** * mask_maker: lasso sessions and the polygon-to-grid rasterizer

    A shallow embedding of [mask_maker.py].  Coordinates are rationals
    (exact arithmetic), Python exceptions are values of [exn], and the
    objects the lasso manager mutates live in an explicit [Store].  The
    numpy, matplotlib and xarray primitives the module calls are modelled
    in the modules [Np], [Mpl] and [Xr].

    The arithmetic of the canvas (spacing, [np.arange]) is exact here,
    where the program rounds in binary64: the number of samples of an
    axis and their values can differ from the program's.  A property
    that depends on either says so (exact arithmetic); the others are
    stated on whatever canvas the computation returns, or on the
    error it raises, and do not depend on how it rounds. *)

From Stdlib Require Import String.
From Stdlib Require Import List Bool Arith ZArith QArith Qround Qfield Lia.
Import ListNotations.

Local Open Scope nat_scope.

(* ================================================================== *)
(** ** Python results *)

Module Py.

Inductive exn : Type :=
| ValueError (msg : string)
| KeyError (key : string)
| AttributeError (name : string).

Inductive result (A : Type) : Type :=
| Ok (a : A)
| Raise (e : exn).
Arguments Ok {A} a.
Arguments Raise {A} e.

Definition bind {A B} (r : result A) (k : A -> result B) : result B :=
  match r with
  | Ok a => k a
  | Raise e => Raise e
  end.

Definition fmap {A B} (f : A -> B) (r : result A) : result B :=
  bind r (fun a => Ok (f a)).


Definition raises {A} (r : result A) : Prop := exists e, r = Raise e.

(** Builtin [max] / [min] over an iterable: the first element is the
    running value, replaced only by a strictly larger (smaller) one. *)
Fixpoint max_from (m : Q) (l : list Q) : Q :=
  match l with
  | [] => m
  | x :: r => max_from (if Qle_bool x m then m else x) r
  end.

Fixpoint min_from (m : Q) (l : list Q) : Q :=
  match l with
  | [] => m
  | x :: r => min_from (if Qle_bool m x then m else x) r
  end.

Definition max (l : list Q) : result Q :=
  match l with
  | [] => Raise (ValueError "max() arg is an empty sequence")
  | x :: r => Ok (max_from x r)
  end.

Definition min (l : list Q) : result Q :=
  match l with
  | [] => Raise (ValueError "min() arg is an empty sequence")
  | x :: r => Ok (min_from x r)
  end.

End Py.

Import Py.

Declare Scope py_scope.
Delimit Scope py_scope with py.
Notation "x <- c ;; k" := (Py.bind c (fun x => k))
  (at level 61, c at next level, right associativity) : py_scope.

Definition point : Type := (Q * Q)%type.

(* ================================================================== *)
(** ** numpy

    The array primitives [mask_create] calls, as numpy documents them,
    over exact rationals. *)

Module Np.

(** A numpy scalar: a finite value, or one of nan / inf / -inf.  numpy
    scalars do not raise on division by zero, they produce a non-finite
    value (and a RuntimeWarning). *)
Inductive float64 : Type :=
| Finite (q : Q)
| NonFinite.

(** [a / n] for a numpy scalar [a] and a Python int [n]. *)
Definition true_divide (a : Q) (n : Z) : float64 :=
  if (n =? 0)%Z then NonFinite else Finite (a / inject_Z n)%Q.

Definition add (a : Q) (b : float64) : float64 :=
  match b with
  | Finite q => Finite (a + q)%Q
  | NonFinite => NonFinite
  end.

(** [start + i*step] for [i = 0 .. n-1]. *)
Definition linear_fill (start step : Q) (n : nat) : list Q :=
  map (fun i => start + inject_Z (Z.of_nat i) * step)%Q (seq 0 n).

(** [np.arange(start, stop, step)]: the length is
    [ceil((stop - start) / step)], clipped at zero.  A quotient that is
    nan or infinite (non-finite operand, zero step) has no length and
    the call raises. *)
Definition arange (start : Q) (stop step : float64) : result (list Q) :=
  match stop, step with
  | Finite stop, Finite step =>
      if Qeq_bool step 0
      then Raise (ValueError "arange: cannot compute length")
      else Ok (linear_fill start step
                 (Z.to_nat (Qceiling ((stop - start) / step)%Q)))
  | _, _ => Raise (ValueError "arange: cannot compute length")
  end.

(** [np.meshgrid(xv, yv)] with the default ['xy'] indexing: two arrays
    of shape [(len yv, len xv)], given here as lists of rows. *)
Definition meshgrid (xv yv : list Q) : list (list Q) * list (list Q) :=
  (map (fun _ => xv) yv, map (fun y => map (fun _ => y) xv) yv).

(** [a.flatten()], C order. *)
Definition flatten (a : list (list Q)) : list Q := concat a.

(** [np.vstack((x, y)).T] for two 1-D arrays of one length: the rows
    of the result are the pairs [(x[k], y[k])]. *)
Definition vstack_T (x y : list Q) : list point := combine x y.

(** A 2-D array: its shape and its buffer in C (row-major) order. *)
Inductive ndarray : Type :=
| BoolArray (shape : nat * nat) (buf : list bool)
| FloatArray (shape : nat * nat) (buf : list Q).

Definition shape (a : ndarray) : nat * nat :=
  match a with
  | BoolArray s _ => s
  | FloatArray s _ => s
  end.

Definition size (a : ndarray) : nat :=
  match a with
  | BoolArray _ b => length b
  | FloatArray _ b => length b
  end.

(** Truth value of every element, in buffer order. *)
Definition truth (a : ndarray) : list bool :=
  match a with
  | BoolArray _ b => b
  | FloatArray _ b => map (fun q => negb (Qeq_bool q 0)) b
  end.

(** Truth value of [a[r, c]]. *)
Definition item (a : ndarray) (r c : nat) : option bool :=
  if (r <? fst (shape a)) && (c <? snd (shape a))
  then nth_error (truth a) (r * snd (shape a) + c)
  else None.

(** [a.tolist()], every element by its truth value. *)
Definition tolist (a : ndarray) : list (list (option bool)) :=
  map (fun r => map (fun c => item a r c) (seq 0 (snd (shape a))))
      (seq 0 (fst (shape a))).

(** [a + b] on 1-D boolean arrays is the elementwise logical or; a
    length-one operand is broadcast, other unequal lengths raise. *)
Definition add_bool (a b : list bool) : result (list bool) :=
  if length a =? length b then Ok (map (fun p => orb (fst p) (snd p)) (combine a b))
  else match a, b with
       | [x], _ => Ok (map (orb x) b)
       | _, [y] => Ok (map (fun x => orb x y) a)
       | _, _ => Raise (ValueError "operands could not be broadcast together")
       end.

(** [full.reshape(r, c)] on a 1-D boolean array. *)
Definition reshape (v : list bool) (r c : nat) : result ndarray :=
  if length v =? r * c then Ok (BoolArray (r, c) v)
  else Raise (ValueError "cannot reshape array").

(** [np.zeros((r, c))]: float64 zeros. *)
Definition zeros (r c : nat) : ndarray :=
  FloatArray (r, c) (repeat 0%Q (r * c)).


End Np.

(* ================================================================== *)
(** ** matplotlib

    Paths with the point-in-polygon walk of [Path.contains_points], the
    widget lock, and the few fields of canvas, axes, lasso and mouse
    event that [LassoManager] touches. *)

Module Mpl.

(** [matplotlib.path.Path(verts)]: the vertex array, no codes. *)
Inductive Path : Type := MkPath (vertices : list point).

Definition vertices (p : Path) : list point :=
  match p with MkPath v => v end.

(** The call [path.Path(verts)]: the vertices are turned into an array,
    which must have shape (N, 2).  An empty list gives an array of
    shape (0,) and is refused; a list of one or more (x, y) pairs is
    accepted. *)
Definition Path_new (verts : list point) : result Path :=
  match verts with
  | [] => Raise (ValueError "'vertices' must be a 2D list or array with shape Nx2")
  | _ :: _ => Ok (MkPath verts)
  end.

(** One edge test of the crossing-number walk for the test point
    [(tx, ty)] and the edge from [v0] to [v1]; [yflag0] is the flag
    carried from the previous vertex.  Returns the updated crossing
    parity and the new flag. *)
Definition edge_step (pt v0 v1 : point) (yflag0 flag : bool) : bool * bool :=
  let '(tx, ty) := pt in
  let '(vtx0, vty0) := v0 in
  let '(vtx1, vty1) := v1 in
  let yflag1 := Qle_bool ty vty1 in
  let hit :=
    Bool.eqb (Qle_bool ((vtx1 - tx) * (vty0 - vty1)) ((vty1 - ty) * (vtx0 - vtx1)))
             yflag1 in
  (if negb (Bool.eqb yflag0 yflag1) && hit then negb flag else flag, yflag1).

(** The walk over the vertex stream: each vertex read advances the
    pair [(v0, v1)] after testing the edge held so far; when the
    stream stops the start vertex is fed once more and a last pass
    tests the closing edge. *)
Fixpoint walk (pt v0 v1 : point) (yflag0 flag : bool)
         (rest : list point) (start : point) : bool :=
  let '(flag', yflag1) := edge_step pt v0 v1 yflag0 flag in
  match rest with
  | x :: rest' => walk pt v1 x yflag1 flag' rest' start
  | [] => fst (edge_step pt v1 start yflag1 flag')
  end.

(** [Path.contains_points] with the default radius 0 and no transform,
    for one test point: a path of fewer than three vertices contains
    nothing; otherwise the crossing-number parity of the implicitly
    closed vertex ring. *)
Definition point_in_path (p : Path) (pt : point) : bool :=
  match vertices p with
  | s :: rest =>
      if length (vertices p) <? 3 then false
      else walk pt s s (Qle_bool (snd pt) (snd s)) false rest s
  | [] => false
  end.

(** [matplotlib.widgets.LockDraw]: the owner, if any. *)
Definition LockDraw : Type := option nat.

Definition locked (l : LockDraw) : bool :=
  match l with Some _ => true | None => false end.

Definition isowner (l : LockDraw) (o : nat) : bool :=
  match l with Some w => w =? o | None => false end.

Definition available (l : LockDraw) (o : nat) : bool :=
  negb (locked l) || isowner l o.

(** [lock(o)]: reserve the lock for [o]. *)
Definition acquire (l : LockDraw) (o : nat) : result LockDraw :=
  if available l o then Ok (Some o)
  else Raise (ValueError "already locked").

Definition release (l : LockDraw) (o : nat) : result LockDraw :=
  if available l o then Ok None
  else Raise (ValueError "you do not own this lock").

Inductive Artist : Type :=
| RegularPolyCollection
| PathPatch (path : Path).

(** A figure canvas: its widget lock, the handlers connected to
    [button_press_event] (the managers whose [onpress] is bound), the
    number of pending [draw_idle] requests, and the counter of its
    callback registry, which hands out the connection ids of every
    [mpl_connect] on the canvas, whatever the event. *)
Record Canvas : Type := mkCanvas {
  widgetlock : LockDraw;
  press_handlers : list nat;
  draw_idle_requests : nat;
  next_cid : nat
}.

(** An axes: the canvas of its figure and the artists added to it. *)
Record Axes : Type := mkAxes {
  figure_canvas : nat;
  collections : list Artist;
  patches : list Artist
}.

(** A [Lasso] widget: the axes it draws in, its start position and
    the manager whose [callback] it calls on release. *)
Record Lasso : Type := mkLasso {
  lasso_ax : nat;
  lasso_xy : option Q * option Q;
  lasso_callback : nat
}.

(** A mouse event; [inaxes] is [None] outside every axes. *)
Record MouseEvent : Type := mkEvent {
  inaxes : option nat;
  xdata : option Q;
  ydata : option Q
}.

End Mpl.

(* ================================================================== *)
(** ** xarray

    Labelled fields and the dimension check that [xarray.Dataset] runs
    when it merges its variables. *)

Module Xr.

(** A labelled field: its dimensions in order, each with the values
    of its coordinate, and its data in C order. *)
Record DataArray : Type := mkDataArray {
  dims : list (string * list Q);
  values : list Q
}.

Fixpoint lookup {A} (k : string) (l : list (string * A)) : option A :=
  match l with
  | [] => None
  | (k', v) :: r => if String.eqb k k' then Some v else lookup k r
  end.

(** [data_array.coords[name].values] *)
Definition coords (da : DataArray) (name : string) : result (list Q) :=
  match lookup name (dims da) with
  | Some v => Ok v
  | None => Raise (KeyError name)
  end.

Definition sizes (da : DataArray) : list (string * nat) :=
  map (fun d => (fst d, length (snd d))) (dims da).

Fixpoint nodup_names (l : list string) : bool :=
  match l with
  | [] => true
  | x :: r => negb (existsb (String.eqb x) r) && nodup_names r
  end.

(** Every dimension of a field has its own name. *)
Definition well_formed (da : DataArray) : bool :=
  nodup_names (map fst (dims da)).

(** [calculate_dimensions]: every (dimension, size) pair of every
    variable is entered in one table; a dimension met again with
    another size raises. *)
Fixpoint calculate_dimensions (table : list (string * nat))
         (vars : list (string * nat)) : result (list (string * nat)) :=
  match vars with
  | [] => Ok table
  | (d, n) :: r =>
      match lookup d table with
      | None => calculate_dimensions (table ++ [(d, n)]) r
      | Some n' =>
          if n =? n' then calculate_dimensions table r
          else Raise (ValueError "conflicting sizes for dimension")
      end
  end.

(** The bundle built by [combine_data_and_mask]: the two data
    variables and the dimension table. *)
Record Dataset : Type := mkDataset {
  ds_data : DataArray;
  ds_mask : list string * Np.ndarray;
  ds_dims : list (string * nat)
}.

(** [xarray.Dataset({'data': da, 'mask': (mask_dims, mask)})]: the
    tuple becomes a variable (one dimension name per array axis), then
    the dimensions of [data], of its coordinates and of [mask] are
    merged. *)
Definition Dataset_of (da : DataArray) (mask_dims : list string)
           (mask : Np.ndarray) : result Dataset :=
  match mask_dims with
  | [d0; d1] =>
      Py.bind
        (calculate_dimensions []
           (sizes da ++ sizes da
              ++ [(d0, fst (Np.shape mask)); (d1, snd (Np.shape mask))]))
        (fun table => Ok (mkDataset da (mask_dims, mask) table))
  | _ => Raise (ValueError "dimensions must have the same length as the number of data dimensions")
  end.

End Xr.

(* ================================================================== *)
(** ** The object store *)

(** The instance attributes of one [LassoManager]; [lasso] is bound by
    [onpress] and deleted by [callback].  No instance binds [paths]. *)
Record LassoManagerObj : Type := mkManager {
  axes : nat;
  canvas : nat;
  data : list point;
  Nxy : nat;
  collection : Mpl.Artist;
  cid : nat;
  lasso : option nat
}.

(** The objects reachable from the module: the class attribute
    [LassoManager.paths], the managers, and the matplotlib objects they
    point at, each addressed by its identity. *)
Record Store : Type := mkStore {
  LassoManager_paths : list Mpl.Path;
  managers : nat -> LassoManagerObj;
  next_manager : nat;
  canvases : nat -> Mpl.Canvas;
  all_axes : nat -> Mpl.Axes;
  lassos : nat -> Mpl.Lasso;
  next_lasso : nat
}.

Definition upd {A} (m : nat -> A) (k : nat) (v : A) : nat -> A :=
  fun j => if j =? k then v else m j.

(** Statements that read and write the store and may raise; a raise
    keeps the writes made before it. *)
Definition M (A : Type) : Type := Store -> result A * Store.

Definition ret {A} (a : A) : M A := fun s => (Ok a, s).

Definition raise {A} (e : exn) : M A := fun s => (Raise e, s).

Definition mbind {A B} (m : M A) (k : A -> M B) : M B :=
  fun s => match m s with
           | (Ok a, s') => k a s'
           | (Raise e, s') => (Raise e, s')
           end.

Definition lift {A} (r : result A) : M A := fun s => (r, s).

Definition gets {A} (f : Store -> A) : M A := fun s => (Ok (f s), s).

Definition modify (f : Store -> Store) : M unit := fun s => (Ok tt, f s).

Declare Scope store_scope.
Delimit Scope store_scope with store.
Notation "x <- c ;; k" := (mbind c (fun x => k))
  (at level 61, c at next level, right associativity) : store_scope.
Notation "c ;;; k" := (mbind c (fun _ => k))
  (at level 61, right associativity) : store_scope.

Definition set_paths (v : list Mpl.Path) (s : Store) : Store :=
  mkStore v (managers s) (next_manager s) (canvases s) (all_axes s)
          (lassos s) (next_lasso s).

Definition set_manager (k : nat) (v : LassoManagerObj) (s : Store) : Store :=
  mkStore (LassoManager_paths s) (upd (managers s) k v) (next_manager s)
          (canvases s) (all_axes s) (lassos s) (next_lasso s).

Definition set_canvas (k : nat) (v : Mpl.Canvas) (s : Store) : Store :=
  mkStore (LassoManager_paths s) (managers s) (next_manager s)
          (upd (canvases s) k v) (all_axes s) (lassos s) (next_lasso s).

Definition set_axes (k : nat) (v : Mpl.Axes) (s : Store) : Store :=
  mkStore (LassoManager_paths s) (managers s) (next_manager s)
          (canvases s) (upd (all_axes s) k v) (lassos s) (next_lasso s).

Definition new_manager (v : LassoManagerObj) : M nat :=
  fun s => (Ok (next_manager s),
            mkStore (LassoManager_paths s) (upd (managers s) (next_manager s) v)
                    (S (next_manager s)) (canvases s) (all_axes s)
                    (lassos s) (next_lasso s)).

Definition new_lasso (v : Mpl.Lasso) : M nat :=
  fun s => (Ok (next_lasso s),
            mkStore (LassoManager_paths s) (managers s) (next_manager s)
                    (canvases s) (all_axes s)
                    (upd (lassos s) (next_lasso s) v) (S (next_lasso s))).

(* ================================================================== *)
(** ** class LassoManager *)

Module LassoManager.

Local Open Scope store_scope.

(** [self.paths]: attribute lookup finds nothing on the instance and
    falls through to the class attribute, one list for every
    instance. *)
Definition paths (self : nat) : M (list Mpl.Path) :=
  gets LassoManager_paths.

Definition add_collection (ax : nat) (c : Mpl.Artist) : M unit :=
  modify (fun s =>
    let a := all_axes s ax in
    set_axes ax (Mpl.mkAxes (Mpl.figure_canvas a)
                            (Mpl.collections a ++ [c]) (Mpl.patches a)) s).

Definition add_patch (ax : nat) (c : Mpl.Artist) : M unit :=
  modify (fun s =>
    let a := all_axes s ax in
    set_axes ax (Mpl.mkAxes (Mpl.figure_canvas a)
                            (Mpl.collections a) (Mpl.patches a ++ [c])) s).

(** [canvas.mpl_connect('button_press_event', self.onpress)]: the
    handler is registered and the connection id is the next value of
    the registry counter of the canvas. *)
Definition mpl_connect (cv self : nat) : M nat :=
  fun s =>
    let c := canvases s cv in
    (Ok (Mpl.next_cid c),
     set_canvas cv (Mpl.mkCanvas (Mpl.widgetlock c)
                                 (Mpl.press_handlers c ++ [self])
                                 (Mpl.draw_idle_requests c)
                                 (S (Mpl.next_cid c))) s).

(** A widget connecting one of its own handlers (release, motion) to
    the canvas: one more connection id is taken. *)
Definition connect_event (cv : nat) : M nat :=
  fun s =>
    let c := canvases s cv in
    (Ok (Mpl.next_cid c),
     set_canvas cv (Mpl.mkCanvas (Mpl.widgetlock c) (Mpl.press_handlers c)
                                 (Mpl.draw_idle_requests c)
                                 (S (Mpl.next_cid c))) s).

(** [Lasso(ax, xy, callback)]: the widget is created and connects its
    release and its motion handler to the canvas of [ax]. *)
Definition Lasso_new (ax : nat) (xy : option Q * option Q) (callback_self : nat)
  : M nat :=
  o <- new_lasso (Mpl.mkLasso ax xy callback_self) ;;
  cv <- gets (fun s => Mpl.figure_canvas (all_axes s ax)) ;;
  connect_event cv ;;;
  connect_event cv ;;;
  ret o.

Definition draw_idle (cv : nat) : M unit :=
  modify (fun s =>
    let c := canvases s cv in
    set_canvas cv (Mpl.mkCanvas (Mpl.widgetlock c) (Mpl.press_handlers c)
                                (S (Mpl.draw_idle_requests c))
                                (Mpl.next_cid c)) s).

Definition set_widgetlock (cv : nat) (l : Mpl.LockDraw) : M unit :=
  modify (fun s =>
    let c := canvases s cv in
    set_canvas cv (Mpl.mkCanvas l (Mpl.press_handlers c)
                                (Mpl.draw_idle_requests c)
                                (Mpl.next_cid c)) s).

Definition set_lasso (self : nat) (l : option nat) : M unit :=
  modify (fun s =>
    let m := managers s self in
    set_manager self (mkManager (axes m) (canvas m) (data m) (Nxy m)
                                (collection m) (cid m) l) s).

Definition __init__ (ax : nat) (data : list point) : M nat :=
  self <- gets next_manager ;;
  cv <- gets (fun s => Mpl.figure_canvas (all_axes s ax)) ;;
  add_collection ax Mpl.RegularPolyCollection ;;;
  cid <- mpl_connect cv self ;;
  new_manager (mkManager ax cv data (length data)
                         Mpl.RegularPolyCollection cid None).

Definition callback (self : nat) (verts : list point) : M unit :=
  p <- lift (Mpl.Path_new verts) ;;
  ps <- paths self ;;
  modify (set_paths (ps ++ [p])) ;;;
  let patch := Mpl.PathPatch p in
  ax <- gets (fun s => axes (managers s self)) ;;
  add_patch ax patch ;;;
  cv <- gets (fun s => canvas (managers s self)) ;;
  draw_idle cv ;;;
  l <- gets (fun s => lasso (managers s self)) ;;
  match l with
  | None => raise (AttributeError "lasso")
  | Some o =>
      lock <- gets (fun s => Mpl.widgetlock (canvases s cv)) ;;
      lock' <- lift (Mpl.release lock o) ;;
      set_widgetlock cv lock' ;;;
      set_lasso self None
  end.

Definition onpress (self : nat) (event : Mpl.MouseEvent) : M unit :=
  cv <- gets (fun s => canvas (managers s self)) ;;
  lock <- gets (fun s => Mpl.widgetlock (canvases s cv)) ;;
  if Mpl.locked lock then ret tt
  else
    match Mpl.inaxes event with
    | None => ret tt
    | Some ax =>
        o <- Lasso_new ax (Mpl.xdata event, Mpl.ydata event) self ;;
        set_lasso self (Some o) ;;;
        lock <- gets (fun s => Mpl.widgetlock (canvases s cv)) ;;
        lock' <- lift (Mpl.acquire lock o) ;;
        set_widgetlock cv lock'
    end.

End LassoManager.

(* ================================================================== *)
(** ** combine_data_and_mask *)

Definition combine_data_and_mask (data_array : Xr.DataArray) (mask : Np.ndarray)
           (xcoord ycoord : string) : result Xr.Dataset :=
  Xr.Dataset_of data_array [ycoord; xcoord] mask.

(** The cartopy projection handed to [mask_create]; never inspected. *)
Inductive ccrs : Type := Projection (name : string).

(* ================================================================== *)
(** ** Concrete data used in the scenarios *)

Definition default_axes (cv : nat) : Mpl.Axes := Mpl.mkAxes cv [] [].

(** The store right after the module is imported: the class attribute
    is the empty list, nothing is locked, and axes [k] belongs to a
    figure canvas of its own, canvas [k], on which nothing has been
    connected yet (every registry counter at zero). *)
Definition fresh_store : Store :=
  mkStore []
          (fun _ => mkManager 0 0 [] 0 Mpl.RegularPolyCollection 0 None) 0
          (fun _ => Mpl.mkCanvas None [] 0 0)
          default_axes
          (fun _ => Mpl.mkLasso 0 (None, None) 0) 0.

Definition axis_0_3 : list Q := [0; 1; 2; 3]%Q.

Definition unit_square : Mpl.Path :=
  Mpl.MkPath [(1#2, 1#2); (3#2, 1#2); (3#2, 3#2); (1#2, 3#2)]%Q.

(** A field over a grid of three x values and two y values. *)
Definition field_3x2 : Xr.DataArray :=
  Xr.mkDataArray [("y"%string, [0; 1]%Q); ("x"%string, [0; 1; 2]%Q)]
                 [0; 0; 0; 0; 0; 0]%Q.

(** A press inside axes 0 at (1, 1). *)
Definition press_in_axes_0 : Mpl.MouseEvent :=
  Mpl.mkEvent (Some 0) (Some 1%Q) (Some 1%Q).

(** A press outside every axes. *)
Definition press_outside : Mpl.MouseEvent := Mpl.mkEvent None None None.

(** Two sessions on figures of their own: the first completes one
    gesture; the list seen through the second is read before and after,
    and through a third session constructed afterwards. *)
Definition two_sessions (verts : list point)
  : M (list Mpl.Path * list Mpl.Path * list Mpl.Path) :=
  (a <- LassoManager.__init__ 0 [] ;;
   b <- LassoManager.__init__ 1 [] ;;
   before <- LassoManager.paths b ;;
   LassoManager.onpress a press_in_axes_0 ;;;
   LassoManager.callback a verts ;;;
   after <- LassoManager.paths b ;;
   c <- LassoManager.__init__ 2 [] ;;
   late <- LassoManager.paths c ;;
   ret (before, after, late))%store.

(** The store while the first gesture of a session on axes 0 is in
    progress: the session holds the widget lock of its canvas. *)
Definition store_mid_gesture : Store :=
  snd ((a <- LassoManager.__init__ 0 [] ;;
        LassoManager.onpress a press_in_axes_0)%store fresh_store).

(** A square around the grid point (2, 0). *)
Definition corner_square : Mpl.Path :=
  Mpl.MkPath [(3#2, -1#2); (5#2, -1#2); (5#2, 1#2); (3#2, 1#2)]%Q.

(** The uniform grid of [nx] by [ny] points that starts at
    [(lox, loy)] with steps [dx] and [dy], listed row by row with y
    constant along a row. *)
Definition uniform_grid (lox dx : Q) (nx : nat) (loy dy : Q) (ny : nat)
  : list point :=
  flat_map (fun y => map (fun x => (x, y)) (Np.linear_fill lox dx nx))
           (Np.linear_fill loy dy ny).

(** The spacing of line 126: [(hi - lo) / (n - 1)]. *)
Definition spacing (lo hi : Q) (n : nat) : Q :=
  ((hi - lo) / inject_Z (Z.of_nat n - 1))%Q.

(** An axis has extent when its largest value exceeds its smallest. *)
Definition has_extent (xs : list Q) : bool :=
  match Py.min xs, Py.max xs with
  | Ok lo, Ok hi => negb (Qle_bool hi lo)
  | _, _ => false
  end.

(* ================================================================== *)
(** ** mask_create *)

Section Rasterizer.

(** [p.contains_points(points)] decides every point on its own; the
    point-in-polygon routine itself is left open here
    ([Mpl.point_in_path] is matplotlib's). *)
Variable contains_point : Mpl.Path -> point -> bool.

Definition contains_points (p : Mpl.Path) (points : list point) : list bool :=
  map (contains_point p) points.

Local Open Scope py_scope.

(** Lines 124-131: the spacing of each axis and the flattened canvas
    of sample points. *)
Definition canvas_points (xs ys : list Q) : result (list point) :=
  let lenx := length xs in
  let leny := length ys in
  maxx <- Py.max xs ;;
  minx <- Py.min xs ;;
  let distx := Np.true_divide (maxx - minx) (Z.of_nat lenx - 1) in
  maxy <- Py.max ys ;;
  miny <- Py.min ys ;;
  let disty := Np.true_divide (maxy - miny) (Z.of_nat leny - 1) in
  xv <- Np.arange minx (Np.add maxx distx) distx ;;
  yv <- Np.arange miny (Np.add maxy disty) disty ;;
  let '(x, y) := Np.meshgrid xv yv in
  let x := Np.flatten x in
  let y := Np.flatten y in
  Ok (Np.vstack_T x y).

(** Lines 144-147: [while i < len(grids): full = full + grids[i]; i = i+1];
    [fuel] bounds the number of iterations. *)
Fixpoint while_add (fuel i : nat) (full : list bool)
         (grids : list (list bool)) : result (list bool) :=
  match fuel with
  | O => Ok full
  | S fuel' =>
      if i <? length grids then
        full' <- Np.add_bool full (nth i grids []) ;;
        while_add fuel' (i + 1) full' grids
      else Ok full
  end.

(** Lines 124-152 of [mask_create], over the two axis value arrays and
    the list [lman.paths]. *)
Definition rasterize (xs ys : list Q) (paths : list Mpl.Path)
  : result Np.ndarray :=
  points <- canvas_points xs ys ;;
  let grids := map (fun p => contains_points p points) paths in
  if 0 <? length grids then
    full <- (if length grids =? 1 then Ok (nth 0 grids [])
             else if length grids =? 2
                  then Np.add_bool (nth 0 grids []) (nth 1 grids [])
                  else full <- Np.add_bool (nth 0 grids []) (nth 1 grids []) ;;
                       while_add (length grids) 2 full grids) ;;
    Np.reshape full (length xs) (length ys)
  else Ok (Np.zeros (length xs) (length ys)).

Definition mask_create (data_array : Xr.DataArray) (proj : ccrs) (lman : nat)
           (xcoord ycoord : string) : M Np.ndarray :=
  (xs <- lift (Xr.coords data_array xcoord) ;;
   ys <- lift (Xr.coords data_array ycoord) ;;
   paths <- LassoManager.paths lman ;;
   lift (rasterize xs ys paths))%store.

(** The cellwise or of the containment vectors of [paths] over
    [points]. *)
Definition any_contains (paths : list Mpl.Path) (points : list point)
  : list bool :=
  map (fun pt => existsb (fun p => contains_point p pt) paths) points.

End Rasterizer.

(* ================================================================== *)
(** ** get_variables and load_xarray *)

(** A dataset as [xarray.open_dataset] returns it: its variables by
    name, in the order of [x.variables]. *)
Definition NcDataset : Type := list (string * Xr.DataArray).

(** What [load_xarray] returns: one variable, or the whole dataset. *)
Inductive Loaded : Type :=
| LoadedArray (x : Xr.DataArray)
| LoadedDataset (x : NcDataset).

Section Files.

(** [xarray.open_dataset]: the dataset stored under a path, or the
    error the reader raises for it. *)
Variable open_dataset : string -> result NcDataset.

Definition get_variables (fname : string) : result (list string) :=
  (x <- open_dataset fname ;;
   let variables := x in
   Ok (map fst variables))%py.

(** [x[var]] on a dataset. *)
Definition getitem (x : NcDataset) (var : string) : result Xr.DataArray :=
  match Xr.lookup var x with
  | Some v => Ok v
  | None => Raise (KeyError var)
  end.

(** The result of [load_xarray] and the lines it printed. *)
Definition load_xarray (fname var : string) : result Loaded * list string :=
  match open_dataset fname with
  | Raise e => (Raise e, [])
  | Ok x =>
      match get_variables fname with
      | Raise e => (Raise e, [])
      | Ok names =>
          if existsb (String.eqb var) names
          then (Py.fmap LoadedArray (getitem x var), [])
          else (Ok (LoadedDataset x),
                [(var ++ " not in variables of " ++ fname)%string;
                 "returning entire Dataset"%string])
      end
  end.

End Files.

(** A reader with one file, ["w.nc"], holding the field [field_3x2]
    under the name ["w"] and its two coordinates. *)
Definition one_file (fname : string) : result NcDataset :=
  if String.eqb fname "w.nc"
  then Ok [("w"%string, field_3x2);
           ("y"%string, Xr.mkDataArray [("y"%string, [0; 1]%Q)] [0; 1]%Q);
           ("x"%string, Xr.mkDataArray [("x"%string, [0; 1; 2]%Q)] [0; 1; 2]%Q)]
  else Raise (ValueError "did not find a match in any of xarray's currently installed IO backends").

(* ================================================================== *)
(** ** Event sequences of a figure *)

(** What the event loop delivers: a session is constructed on an axes,
    a press reaches the [onpress] of a session, or a lasso releases and
    calls the [callback] of a session. *)
Inductive Event : Type :=
| Construct (ax : nat) (data : list point)
| Press (self : nat) (event : Mpl.MouseEvent)
| Release (self : nat) (verts : list point).

(** One event; an exception raised by a handler is reported by the
    event loop and the writes made before it stay. *)
Definition handle (e : Event) (s : Store) : Store :=
  match e with
  | Construct ax data => snd (LassoManager.__init__ ax data s)
  | Press self event => snd (LassoManager.onpress self event s)
  | Release self verts => snd (LassoManager.callback self verts s)
  end.

Definition run (events : list Event) (s : Store) : Store :=
  fold_left (fun s e => handle e s) events s.

(** The polygons of the releases of an event sequence, in order. *)
Definition released (events : list Event) : list Mpl.Path :=
  flat_map (fun e => match e with
                     | Release _ verts => [Mpl.MkPath verts]
                     | _ => []
                     end) events.

(** The polygons that the releases of an event sequence add to the
    polygon list, in order: one per release that traced at least one
    vertex. *)
Definition drawn (events : list Event) : list Mpl.Path :=
  flat_map (fun e => match e with
                     | Release _ (v :: verts) => [Mpl.MkPath (v :: verts)]
                     | _ => []
                     end) events.


(** The samples of one axis: the [np.arange] call of line 129 on the
    smallest value, the largest value and the spacing of the axis. *)
Definition axis_samples (xs : list Q) : result (list Q) :=
  (maxx <- Py.max xs ;;
   minx <- Py.min xs ;;
   let distx := Np.true_divide (maxx - minx) (Z.of_nat (length xs) - 1) in
   Np.arange minx (Np.add maxx distx) distx)%py.

(** The grid of the given coordinate values, row by row with y
    constant along a row. *)
Definition axis_grid (xs ys : list Q) : list point :=
  flat_map (fun y => map (fun x => (x, y)) xs) ys.


(* ================================================================== *)
(** * Properties *)

(** ** Builtin min and max *)

Lemma max_from_ge (l : list Q) : forall m, (m <= Py.max_from m l)%Q.
Proof.
  induction l as [|x r IH]; intro m; simpl.
  - apply Qle_refl.
  - destruct (Qle_bool x m) eqn:E.
    + apply IH.
    + apply Qle_trans with x; [|apply IH].
      apply Qlt_le_weak, Qnot_le_lt. intro H.
      apply Qle_bool_iff in H. congruence.
Qed.

Lemma min_from_le (l : list Q) : forall m, (Py.min_from m l <= m)%Q.
Proof.
  induction l as [|x r IH]; intro m; simpl.
  - apply Qle_refl.
  - destruct (Qle_bool m x) eqn:E.
    + apply IH.
    + apply Qle_trans with x; [apply IH|].
      apply Qlt_le_weak, Qnot_le_lt. intro H.
      apply Qle_bool_iff in H. congruence.
Qed.

Lemma min_le_max (xs : list Q) (lo hi : Q) :
  Py.min xs = Ok lo -> Py.max xs = Ok hi -> (lo <= hi)%Q.
Proof.
  destruct xs as [|x r]; simpl; [discriminate|].
  intros H1 H2. inversion H1; inversion H2; subst.
  apply Qle_trans with x; [apply min_from_le | apply max_from_ge].
Qed.

Lemma has_extent_inv (xs : list Q) :
  has_extent xs = true ->
  exists lo hi, Py.min xs = Ok lo /\ Py.max xs = Ok hi /\ (lo < hi)%Q.
Proof.
  unfold has_extent.
  destruct (Py.min xs) as [lo|]; [|discriminate].
  destruct (Py.max xs) as [hi|]; [|discriminate].
  intro H. exists lo, hi. repeat split.
  apply Qnot_le_lt. intro L. apply Qle_bool_iff in L.
  rewrite L in H. discriminate.
Qed.

Lemma max_from_upper (l : list Q) :
  forall m a, In a l -> (a <= Py.max_from m l)%Q.
Proof.
  induction l as [|x r IH]; intros m a Hin; simpl; [contradiction|].
  destruct Hin as [->|Hin]; [|now apply IH].
  eapply Qle_trans; [|apply max_from_ge].
  destruct (Qle_bool a m) eqn:E; [now apply Qle_bool_iff | apply Qle_refl].
Qed.

Lemma min_from_lower (l : list Q) :
  forall m a, In a l -> (Py.min_from m l <= a)%Q.
Proof.
  induction l as [|x r IH]; intros m a Hin; simpl; [contradiction|].
  destruct Hin as [->|Hin]; [|now apply IH].
  eapply Qle_trans; [apply min_from_le|].
  destruct (Qle_bool m a) eqn:E; [now apply Qle_bool_iff | apply Qle_refl].
Qed.

Lemma max_from_in (l : list Q) :
  forall m, Py.max_from m l = m \/ In (Py.max_from m l) l.
Proof.
  induction l as [|x r IH]; intro m; simpl; [now left|].
  destruct (Qle_bool x m).
  - destruct (IH m) as [E|Hin]; [now left | now right; right].
  - destruct (IH x) as [E|Hin]; [right; left; now rewrite E | now right; right].
Qed.

Lemma min_from_in (l : list Q) :
  forall m, Py.min_from m l = m \/ In (Py.min_from m l) l.
Proof.
  induction l as [|x r IH]; intro m; simpl; [now left|].
  destruct (Qle_bool m x).
  - destruct (IH m) as [E|Hin]; [now left | now right; right].
  - destruct (IH x) as [E|Hin]; [right; left; now rewrite E | now right; right].
Qed.

(** An axis has extent exactly when two of its values differ. *)
Lemma has_extent_iff (xs : list Q) :
  has_extent xs = true <-> exists a b, In a xs /\ In b xs /\ (a < b)%Q.
Proof.
  split.
  - intro H. destruct (has_extent_inv xs H) as (lo & hi & Hlo & Hhi & Hlt).
    exists lo, hi. destruct xs as [|x r]; [discriminate|].
    simpl in Hlo, Hhi. injection Hlo as <-. injection Hhi as <-.
    repeat split; [| | exact Hlt].
    + destruct (min_from_in r x) as [->|Hin]; [now left | now right].
    + destruct (max_from_in r x) as [->|Hin]; [now left | now right].
  - intros (a & b & Ha & Hb & Hlt).
    destruct xs as [|x r]; [contradiction|].
    unfold has_extent. simpl. apply negb_true_iff.
    destruct (Qle_bool (Py.max_from x r) (Py.min_from x r)) eqn:E;
      [exfalso | reflexivity].
    apply Qle_bool_iff in E.
    assert (La : (Py.min_from x r <= a)%Q).
    { destruct Ha as [<-|Ha]; [apply min_from_le | now apply min_from_lower]. }
    assert (Lb : (b <= Py.max_from x r)%Q).
    { destruct Hb as [<-|Hb]; [apply max_from_ge | now apply max_from_upper]. }
    apply (Qlt_irrefl a).
    eapply Qlt_le_trans; [exact Hlt|].
    eapply Qle_trans; [exact Lb|]. eapply Qle_trans; [exact E | exact La].
Qed.

(** ** The sample points of one axis *)

Lemma linear_fill_length (start step : Q) (n : nat) :
  length (Np.linear_fill start step n) = n.
Proof. unfold Np.linear_fill. now rewrite length_map, length_seq. Qed.

Lemma spacing_positive (lo hi : Q) (n : nat) :
  2 <= n -> (lo < hi)%Q -> (0 < (hi - lo) / inject_Z (Z.of_nat n - 1))%Q.
Proof.
  intros Hn Hlt.
  apply Qlt_shift_div_l.
  - change 0%Q with (inject_Z 0). rewrite <- Zlt_Qlt. lia.
  - rewrite Qmult_0_l. unfold Qminus. rewrite <- Qlt_minus_iff. exact Hlt.
Qed.

Lemma steps_count (lo hi : Q) (n : nat) :
  2 <= n -> (lo < hi)%Q ->
  let step := ((hi - lo) / inject_Z (Z.of_nat n - 1))%Q in
  Z.to_nat (Qceiling ((hi + step - lo) / step)) = n.
Proof.
  intros Hn Hlt step.
  assert (Hk : ~ (inject_Z (Z.of_nat n - 1) == 0)%Q).
  { change 0%Q with (inject_Z 0). rewrite inject_Z_injective. lia. }
  assert (Hd : ~ (hi - lo == 0)%Q).
  { intro E.
    assert (H : (hi == lo)%Q).
    { setoid_replace hi with ((hi - lo) + lo)%Q by ring. rewrite E. ring. }
    rewrite H in Hlt. exact (Qlt_irrefl lo Hlt). }
  assert (E : ((hi + step - lo) / step == inject_Z (Z.of_nat n))%Q).
  { replace (Z.of_nat n) with ((Z.of_nat n - 1) + 1)%Z by lia.
    rewrite inject_Z_plus. unfold step. field. split; assumption. }
  rewrite E, Qceiling_Z. apply Nat2Z.id.
Qed.

Lemma arange_axis (lo hi : Q) (n : nat) :
  2 <= n -> (lo < hi)%Q ->
  let distx := Np.true_divide (hi - lo) (Z.of_nat n - 1) in
  Np.arange lo (Np.add hi distx) distx
  = Ok (Np.linear_fill lo (spacing lo hi n) n).
Proof.
  intros Hn Hlt distx. unfold distx, Np.true_divide, spacing.
  destruct (Z.eqb_spec (Z.of_nat n - 1) 0) as [E|_]; [lia|].
  simpl. pose proof (spacing_positive lo hi n Hn Hlt) as Hpos.
  destruct (Qeq_bool _ 0) eqn:Hz.
  - apply Qeq_bool_eq in Hz. rewrite Hz in Hpos.
    exfalso. exact (Qlt_irrefl 0 Hpos).
  - do 2 f_equal. apply steps_count; assumption.
Qed.

(** The last sample of an axis is its largest value. *)
Lemma linear_fill_last (lo hi : Q) (n : nat) :
  2 <= n ->
  (lo + inject_Z (Z.of_nat (n - 1)) * spacing lo hi n == hi)%Q.
Proof.
  intro Hn. unfold spacing.
  replace (Z.of_nat (n - 1)) with (Z.of_nat n - 1)%Z by lia.
  field. change 0%Q with (inject_Z 0). rewrite inject_Z_injective. lia.
Qed.

(** Whenever the call for one axis returns, it returns one sample per
    coordinate. *)
Lemma arange_axis_inv (lo hi : Q) (n : nat) (xv : list Q) :
  1 <= n -> (lo <= hi)%Q ->
  let distx := Np.true_divide (hi - lo) (Z.of_nat n - 1) in
  Np.arange lo (Np.add hi distx) distx = Ok xv -> length xv = n.
Proof.
  intros Hn Hle distx H.
  assert (Hn2 : 2 <= n).
  { destruct (Nat.eq_dec n 1) as [->|]; [|lia].
    unfold distx, Np.true_divide in H. simpl in H. discriminate. }
  assert (Hlt : (lo < hi)%Q).
  { apply Qnot_le_lt. intro Hge.
    assert (E : (hi - lo == 0)%Q).
    { assert (H' : (hi == lo)%Q) by (apply Qle_antisym; assumption).
      rewrite H'. ring. }
    unfold distx, Np.true_divide in H.
    destruct (Z.eqb_spec (Z.of_nat n - 1) 0) as [|_]; [lia|].
    simpl in H.
    assert (Hz : Qeq_bool ((hi - lo) / inject_Z (Z.of_nat n - 1)) 0 = true).
    { apply Qeq_bool_iff. rewrite E. unfold Qdiv. ring. }
    rewrite Hz in H. discriminate. }
  pose proof (arange_axis lo hi n Hn2 Hlt) as P. cbv zeta in P.
  fold distx in P. rewrite P in H. injection H as <-.
  apply linear_fill_length.
Qed.

(** ** The canvas *)

Lemma concat_const_length {A B} (row : list A) (l : list B) :
  length (concat (map (fun _ => row) l)) = length l * length row.
Proof.
  induction l as [|b l IH]; simpl; [reflexivity|].
  rewrite length_app, IH. reflexivity.
Qed.

Lemma concat_rows_length {A B} (xv : list A) (yv : list B) :
  length (concat (map (fun y => map (fun _ => y) xv) yv))
  = length yv * length xv.
Proof.
  induction yv as [|y yv IH]; simpl; [reflexivity|].
  rewrite length_app, length_map, IH. reflexivity.
Qed.

Lemma meshgrid_points_length (xv yv : list Q) :
  length (Np.vstack_T (Np.flatten (fst (Np.meshgrid xv yv)))
                      (Np.flatten (snd (Np.meshgrid xv yv))))
  = length xv * length yv.
Proof.
  unfold Np.vstack_T, Np.flatten, Np.meshgrid, point. cbn [fst snd].
  rewrite length_combine, concat_const_length, concat_rows_length.
  rewrite Nat.min_id. apply Nat.mul_comm.
Qed.

Lemma py_max_length (xs : list Q) (hi : Q) : Py.max xs = Ok hi -> 1 <= length xs.
Proof. destruct xs; simpl; [discriminate | lia]. Qed.

(** Whenever the canvas is built it has one point per grid cell. *)
Lemma canvas_points_length (xs ys : list Q) (pts : list point) :
  canvas_points xs ys = Ok pts -> length pts = length xs * length ys.
Proof.
  unfold canvas_points.
  destruct (Py.max xs) as [maxx|] eqn:Hmaxx; simpl; [|discriminate].
  destruct (Py.min xs) as [minx|] eqn:Hminx; simpl; [|discriminate].
  destruct (Py.max ys) as [maxy|] eqn:Hmaxy; simpl; [|discriminate].
  destruct (Py.min ys) as [miny|] eqn:Hminy; simpl; [|discriminate].
  destruct (Np.arange minx _ _) as [xv|] eqn:Hx; simpl; [|discriminate].
  destruct (Np.arange miny _ _) as [yv|] eqn:Hy; simpl; [|discriminate].
  intro H. injection H as <-.
  apply arange_axis_inv in Hx;
    [| eapply py_max_length; eassumption | eapply min_le_max; eassumption].
  apply arange_axis_inv in Hy;
    [| eapply py_max_length; eassumption | eapply min_le_max; eassumption].
  rewrite <- Hx, <- Hy.
  apply (meshgrid_points_length xv yv).
Qed.

Lemma combine_app_same {A B} (l1 l2 : list A) (l1' l2' : list B) :
  length l1 = length l1' ->
  combine (l1 ++ l2) (l1' ++ l2') = combine l1 l1' ++ combine l2 l2'.
Proof.
  revert l1'. induction l1 as [|a l1 IH]; intros [|b l1'] H; simpl in *;
    try discriminate; [reflexivity|].
  f_equal. apply IH. now injection H.
Qed.

Lemma combine_const_row {A B} (xv : list A) (y : B) :
  combine xv (map (fun _ => y) xv) = map (fun x => (x, y)) xv.
Proof. induction xv as [|x xv IH]; simpl; [reflexivity | now rewrite IH]. Qed.

(** The flattened mesh lists the points row by row, x running fastest. *)
Lemma meshgrid_points (xv yv : list Q) :
  Np.vstack_T (Np.flatten (fst (Np.meshgrid xv yv)))
              (Np.flatten (snd (Np.meshgrid xv yv)))
  = flat_map (fun y => map (fun x => (x, y)) xv) yv.
Proof.
  unfold Np.vstack_T, Np.flatten, Np.meshgrid. cbn [fst snd].
  induction yv as [|y yv IH]; simpl; [reflexivity|].
  rewrite combine_app_same by (now rewrite length_map).
  now rewrite IH, combine_const_row.
Qed.

(** Two axes with extent always give a canvas: the uniform grid from
    the smallest to the largest value of each axis. *)
Lemma canvas_points_ok (xs ys : list Q) :
  2 <= length xs -> 2 <= length ys ->
  has_extent xs = true -> has_extent ys = true ->
  exists lox hix loy hiy,
    Py.min xs = Ok lox /\ Py.max xs = Ok hix
    /\ Py.min ys = Ok loy /\ Py.max ys = Ok hiy
    /\ canvas_points xs ys
       = Ok (uniform_grid lox (spacing lox hix (length xs)) (length xs)
                          loy (spacing loy hiy (length ys)) (length ys)).
Proof.
  intros Lx Ly Ex Ey.
  destruct (has_extent_inv xs Ex) as (lox & hix & Hminx & Hmaxx & Hltx).
  destruct (has_extent_inv ys Ey) as (loy & hiy & Hminy & Hmaxy & Hlty).
  pose proof (arange_axis lox hix (length xs) Lx Hltx) as Hxv. cbv zeta in Hxv.
  pose proof (arange_axis loy hiy (length ys) Ly Hlty) as Hyv. cbv zeta in Hyv.
  exists lox, hix, loy, hiy. repeat split; try assumption.
  unfold canvas_points. rewrite Hmaxx, Hminx, Hmaxy, Hminy. simpl.
  rewrite Hxv. simpl. rewrite Hyv. simpl.
  f_equal. apply meshgrid_points.
Qed.

(** An axis of fewer than two coordinates never gives a canvas. *)
Lemma canvas_points_short (xs ys : list Q) :
  length xs < 2 \/ length ys < 2 -> Py.raises (canvas_points xs ys).
Proof.
  intro H. unfold Py.raises.
  destruct (canvas_points xs ys) as [pts|e] eqn:E; [exfalso | eauto].
  revert E. unfold canvas_points.
  destruct (Py.max xs) as [maxx|] eqn:Hmaxx; simpl; [|discriminate].
  destruct (Py.min xs) as [minx|] eqn:Hminx; simpl; [|discriminate].
  destruct (Py.max ys) as [maxy|] eqn:Hmaxy; simpl; [|discriminate].
  destruct (Py.min ys) as [miny|] eqn:Hminy; simpl; [|discriminate].
  apply py_max_length in Hmaxx, Hmaxy.
  destruct H as [H|H].
  - replace (length xs) with 1 by lia. simpl. discriminate.
  - replace (length ys) with 1 by lia.
    destruct (Np.arange minx _ _); simpl; discriminate.
Qed.

(** ** Combining the containment vectors *)

Section RasterizerFacts.

Variable contains_point : Mpl.Path -> point -> bool.

Local Abbreviation any_of := (any_contains contains_point).
Local Abbreviation grid_of := (contains_points contains_point).

Lemma any_contains_length (paths : list Mpl.Path) (pts : list point) :
  length (any_of paths pts) = length pts.
Proof. apply length_map. Qed.

Lemma or_zip {A} (f g : A -> bool) (l : list A) :
  map (fun p => fst p || snd p) (combine (map f l) (map g l))
  = map (fun x => f x || g x) l.
Proof. induction l as [|a l IH]; simpl; [reflexivity | now rewrite IH]. Qed.

Lemma any_contains_single (p : Mpl.Path) (pts : list point) :
  grid_of p pts = any_of [p] pts.
Proof.
  unfold contains_points, any_contains. apply map_ext.
  intro pt. simpl. now rewrite orb_false_r.
Qed.

Lemma add_bool_any (A : list Mpl.Path) (p : Mpl.Path) (pts : list point) :
  Np.add_bool (any_of A pts) (grid_of p pts) = Ok (any_of (A ++ [p]) pts).
Proof.
  unfold Np.add_bool.
  rewrite any_contains_length. unfold contains_points at 1.
  rewrite length_map, Nat.eqb_refl. f_equal.
  unfold any_contains, contains_points. rewrite or_zip.
  apply map_ext. intro pt. rewrite existsb_app. simpl.
  now rewrite orb_false_r.
Qed.

Lemma add_bool_pair (p q : Mpl.Path) (pts : list point) :
  Np.add_bool (grid_of p pts) (grid_of q pts) = Ok (any_of [p; q] pts).
Proof. rewrite (any_contains_single p). apply (add_bool_any [p] q). Qed.

(** The loop started at index [length A] with the or of the first
    [length A] vectors ends with the or of all of them, given fuel for
    the remaining vectors. *)
Lemma while_add_spec (pts : list point) (B : list Mpl.Path) :
  forall (A : list Mpl.Path) (fuel : nat),
    length B <= fuel ->
    while_add fuel (length A) (any_of A pts)
              (map (fun p => grid_of p pts) (A ++ B))
    = Ok (any_of (A ++ B) pts).
Proof.
  induction B as [|p B IH]; intros A fuel Hf.
  - rewrite app_nil_r. destruct fuel as [|fuel]; simpl; [reflexivity|].
    now rewrite length_map, Nat.ltb_irrefl.
  - destruct fuel as [|fuel]; simpl in Hf; [lia|].
    simpl. rewrite length_map, length_app. simpl.
    destruct (Nat.ltb_spec (length A) (length A + S (length B))) as [_|]; [|lia].
    rewrite map_app, app_nth2; rewrite length_map; [|lia].
    rewrite Nat.sub_diag. simpl.
    rewrite add_bool_any. simpl.
    replace (length A + 1) with (length (A ++ [p]))
      by (rewrite length_app; reflexivity).
    replace (map (fun p0 => grid_of p0 pts) A ++ grid_of p pts
               :: map (fun p0 => grid_of p0 pts) B)
      with (map (fun p0 => grid_of p0 pts) ((A ++ [p]) ++ B))
      by (rewrite <- app_assoc, map_app; reflexivity).
    rewrite IH by lia. now rewrite <- app_assoc.
Qed.

#[local] Arguments while_add : simpl never.

(** What [mask_create] returns, for every input: the error of the
    canvas computation if there is one; zeros for no polygon; else the
    cellwise or of the containment vectors, laid out with
    [len(xs)] rows of [len(ys)] cells. *)
Lemma rasterize_eq (xs ys : list Q) (paths : list Mpl.Path) :
  rasterize contains_point xs ys paths
  = Py.fmap (fun pts =>
               match paths with
               | [] => Np.zeros (length xs) (length ys)
               | _ => Np.BoolArray (length xs, length ys) (any_of paths pts)
               end)
            (canvas_points xs ys).
Proof.
  unfold rasterize, Py.fmap.
  destruct (canvas_points xs ys) as [pts|e] eqn:E; simpl; [|reflexivity].
  apply canvas_points_length in E.
  assert (R : forall l, Np.reshape (any_of l pts) (length xs) (length ys)
                        = Ok (Np.BoolArray (length xs, length ys) (any_of l pts))).
  { intro l. unfold Np.reshape.
    now rewrite any_contains_length, E, Nat.eqb_refl. }
  destruct paths as [|p [|q [|r rest]]]; simpl.
  - reflexivity.
  - rewrite any_contains_single. apply R.
  - rewrite add_bool_pair. simpl. apply R.
  - rewrite add_bool_pair. simpl.
    pose proof (while_add_spec pts (r :: rest) [p; q]
                  (S (S (S (length (map (fun p0 => grid_of p0 pts) rest))))))
      as W.
    simpl in W. rewrite length_map in W |- *. rewrite W by lia. simpl. apply R.
Qed.

End RasterizerFacts.

(** ** Masks *)

Lemma zeros_truth (r c : nat) : Np.truth (Np.zeros r c) = repeat false (r * c).
Proof.
  unfold Np.zeros, Np.truth. induction (r * c) as [|n IH]; simpl;
    [reflexivity | now rewrite IH].
Qed.

Lemma map_const_repeat {A B} (b : B) (l : list A) :
  map (fun _ => b) l = repeat b (length l).
Proof. induction l as [|a l IH]; simpl; [reflexivity | now rewrite IH]. Qed.


(** Whatever the polygons, a returned mask has [len(xs)] rows and
    [len(ys)] columns. *)
Lemma rasterize_shape (contains_point : Mpl.Path -> point -> bool)
      (xs ys : list Q) (paths : list Mpl.Path) (m : Np.ndarray) :
  rasterize contains_point xs ys paths = Ok m ->
  Np.shape m = (length xs, length ys).
Proof.
  rewrite rasterize_eq. unfold Py.fmap.
  destruct (canvas_points xs ys) as [pts|e]; simpl; [|discriminate].
  intro H. injection H as <-. destruct paths; reflexivity.
Qed.

(** A returned mask holds one cell per canvas point. *)
Lemma rasterize_size (contains_point : Mpl.Path -> point -> bool)
      (xs ys : list Q) (paths : list Mpl.Path) (m : Np.ndarray) :
  rasterize contains_point xs ys paths = Ok m ->
  Np.size m = length xs * length ys.
Proof.
  rewrite rasterize_eq. unfold Py.fmap.
  destruct (canvas_points xs ys) as [pts|e] eqn:E; simpl; [|discriminate].
  apply canvas_points_length in E.
  intro H. injection H as <-. destruct paths; unfold Np.size.
  - apply repeat_length.
  - now rewrite any_contains_length.
Qed.

(** [mask_create] is [rasterize] on the two coordinate arrays of the
    field and on the list found through the manager; the store is only
    read. *)
Lemma mask_create_rasterize (contains_point : Mpl.Path -> point -> bool)
      (data_array : Xr.DataArray) (proj : ccrs) (lman : nat)
      (xcoord ycoord : string) (xs ys : list Q) (s : Store) :
  Xr.coords data_array xcoord = Ok xs ->
  Xr.coords data_array ycoord = Ok ys ->
  mask_create contains_point data_array proj lman xcoord ycoord s
  = (rasterize contains_point xs ys (LassoManager_paths s), s).
Proof.
  intros Hx Hy. unfold mask_create, mbind, lift. rewrite Hx, Hy. reflexivity.
Qed.

(* ================================================================== *)
(** * The properties of the specification *)

(** C1 (the code departs from it).  The mask is meant to have shape
    (len(y_axis), len(x_axis)), y leading.  On the axes x = [0,1,2],
    y = [0,1] and one polygon around the grid point (2, 0), the code
    returns a mask of shape (3, 2) = (len(x_axis), len(y_axis)): the
    covered point lands at row 1, column 0, the cell [0, 2] does not
    exist, and merging the mask with a field on this grid fails. *)
Theorem mask_create_shape_transposed :
  let xs := [0; 1; 2]%Q in
  let ys := [0; 1]%Q in
  exists m,
    rasterize Mpl.point_in_path xs ys [corner_square] = Ok m
    /\ Np.shape m = (length xs, length ys)
    /\ Np.shape m <> (length ys, length xs)
    /\ Np.tolist m = [[Some false; Some false];
                      [Some true; Some false];
                      [Some false; Some false]]
    /\ Np.item m 0 2 = None
    /\ Py.raises (combine_data_and_mask field_3x2 m "x" "y").
Proof.
  eexists. split; [vm_compute; reflexivity|].
  repeat split; try reflexivity.
  - discriminate.
  - eexists. vm_compute. reflexivity.
Qed.






(** C4.  With x_axis = y_axis = [0,1,2,3] and the square with corners
    (0.5,0.5), (1.5,0.5), (1.5,1.5), (0.5,1.5), the rasterizer returns a
    4x4 mask that is true at row 1, column 1 and false in every other
    cell; the canvas point of that cell (index 1*4 + 1) is (1, 1). *)
Theorem unit_square_scenario :
  exists m pts,
    rasterize Mpl.point_in_path axis_0_3 axis_0_3 [unit_square] = Ok m
    /\ Np.shape m = (4, 4)
    /\ Np.tolist m
       = [[Some false; Some false; Some false; Some false];
          [Some false; Some true; Some false; Some false];
          [Some false; Some false; Some false; Some false];
          [Some false; Some false; Some false; Some false]]
    /\ canvas_points axis_0_3 axis_0_3 = Ok pts
    /\ option_map (fun p => Qeq_bool (fst p) 1 && Qeq_bool (snd p) 1)
                  (nth_error pts (1 * 4 + 1)) = Some true.
Proof.
  do 2 eexists.
  split; [vm_compute; reflexivity|].
  split; [reflexivity|].
  split; [reflexivity|].
  split; [vm_compute; reflexivity|].
  reflexivity.
Qed.

(** C5, counterexample.  On a one-coordinate x-axis, and on an empty
    one, the error that reaches the caller is a ValueError of the
    libraries ([np.arange], [max]), not an error of the module for a
    short axis: the module defines no error of its own. *)
Lemma rasterize_short_axis_counterexample :
  (exists msg, rasterize Mpl.point_in_path [1]%Q [0; 1]%Q [unit_square]
               = Raise (ValueError msg))
  /\ (exists msg, rasterize Mpl.point_in_path [] [0; 1]%Q [unit_square]
                  = Raise (ValueError msg)).
Proof. split; eexists; reflexivity. Qed.

(** C5, amended.  When the x-axis or the y-axis has fewer than two
    coordinates the rasterizer raises, whatever the polygons, and the
    error is a library error that reaches the caller as it is: the
    ValueError of [max] when an axis is empty; otherwise the ValueError
    of [np.arange] for the one-coordinate axis, whose spacing 0/0 is
    nan, unless the [np.arange] call for an x-axis of two or more
    coordinates, which runs first, raised already, and then that
    error. *)
Theorem rasterize_short_axis_raises
        (contains_point : Mpl.Path -> point -> bool)
        (xs ys : list Q) (paths : list Mpl.Path) :
  length xs < 2 \/ length ys < 2 ->
  exists e,
    rasterize contains_point xs ys paths = Raise e
    /\ match xs, ys with
       | [], _ => Py.max xs = Raise e /\ exists msg, e = ValueError msg
       | _ :: _, [] => Py.max ys = Raise e /\ exists msg, e = ValueError msg
       | [_], _ :: _ => axis_samples xs = Raise e
                        /\ exists msg, e = ValueError msg
       | _ :: _ :: _, _ :: _ =>
           axis_samples xs = Raise e
           \/ (axis_samples ys = Raise e /\ exists msg, e = ValueError msg)
       end.
Proof.
  intro H. rewrite rasterize_eq. unfold Py.fmap.
  destruct xs as [|x0 [|x1 xs]].
  - eexists. split; [reflexivity|]. split; [reflexivity | eauto].
  - destruct ys as [|y0 ys]; eexists; (split; [reflexivity|]);
      (split; [reflexivity | eauto]).
  - destruct ys as [|y0 [|y1 ys]].
    + eexists. split; [reflexivity|]. split; [reflexivity | eauto].
    + assert (C : canvas_points (x0 :: x1 :: xs) [y0]
                  = Py.bind (axis_samples (x0 :: x1 :: xs))
                            (fun _ => Raise (ValueError "arange: cannot compute length"))).
      { unfold canvas_points, axis_samples.
        cbn [Py.max Py.min Py.bind].
        destruct (Np.arange _ _ _); reflexivity. }
      rewrite C.
      destruct (axis_samples (x0 :: x1 :: xs)) as [xv|e] eqn:A;
        eexists; (split; [reflexivity|]).
      * right. split; [reflexivity | eauto].
      * now left.
    + simpl in H. lia.
Qed.

Lemma rasterize_short_axis_raises_witness :
  exists e,
    rasterize Mpl.point_in_path [0; 1]%Q [5]%Q [unit_square] = Raise e
    /\ (axis_samples [0; 1]%Q = Raise e
        \/ (axis_samples [5]%Q = Raise e /\ exists msg, e = ValueError msg)).
Proof.
  apply (rasterize_short_axis_raises Mpl.point_in_path [0; 1]%Q [5]%Q
                                     [unit_square]).
  right. simpl. lia.
Defined.

(** C10, counterexample.  Two axes of length two, the first constant:
    the spacing is zero and no canvas is built. *)
Lemma canvas_points_counterexample :
  2 <= length [1; 1]%Q /\ 2 <= length [0; 1]%Q
  /\ canvas_points [1; 1]%Q [0; 1]%Q
     = Raise (ValueError "arange: cannot compute length").
Proof. repeat split; try (simpl; lia). Qed.

(** C10, amended.  For every x-axis and y-axis of length >= 2 whose
    largest value exceeds its smallest (exact arithmetic), the canvas
    of sample points is built: it is the uniform grid that starts at
    the smallest value of each axis and steps by (max - min)/(len - 1),
    and it holds exactly len(x_axis) * len(y_axis) points, so every
    containment vector over it can be reshaped to the two target
    dimensions and the rasterizer returns a mask of that many cells for
    every polygon list. *)
Theorem canvas_points_count
        (contains_point : Mpl.Path -> point -> bool) (xs ys : list Q) :
  2 <= length xs -> 2 <= length ys ->
  has_extent xs = true -> has_extent ys = true ->
  exists pts lox hix loy hiy,
    Py.min xs = Ok lox /\ Py.max xs = Ok hix
    /\ Py.min ys = Ok loy /\ Py.max ys = Ok hiy
    /\ canvas_points xs ys = Ok pts
    /\ pts = uniform_grid lox (spacing lox hix (length xs)) (length xs)
                          loy (spacing loy hiy (length ys)) (length ys)
    /\ length pts = length xs * length ys
    /\ (forall p, exists m,
           Np.reshape (contains_points contains_point p pts)
                      (length xs) (length ys) = Ok m)
    /\ (forall paths, exists m,
           rasterize contains_point xs ys paths = Ok m
           /\ Np.size m = length xs * length ys).
Proof.
  intros Lx Ly Ex Ey.
  destruct (canvas_points_ok xs ys Lx Ly Ex Ey)
    as (lox & hix & loy & hiy & Hlox & Hhix & Hloy & Hhiy & E).
  pose proof (canvas_points_length _ _ _ E) as L.
  eexists. exists lox, hix, loy, hiy.
  repeat split; try eassumption; try reflexivity.
  - intro p. eexists. unfold Np.reshape, contains_points.
    rewrite length_map, L, Nat.eqb_refl. reflexivity.
  - intro paths.
    assert (R : exists m, rasterize contains_point xs ys paths = Ok m).
    { rewrite rasterize_eq, E. simpl. eauto. }
    destruct R as [m R]. exists m. split; [exact R|].
    apply (rasterize_size _ _ _ _ _ R).
Qed.

Lemma canvas_points_count_witness :
  exists pts lox hix loy hiy,
    Py.min axis_0_3 = Ok lox /\ Py.max axis_0_3 = Ok hix
    /\ Py.min axis_0_3 = Ok loy /\ Py.max axis_0_3 = Ok hiy
    /\ canvas_points axis_0_3 axis_0_3 = Ok pts
    /\ pts = uniform_grid lox (spacing lox hix (length axis_0_3))
                          (length axis_0_3)
                          loy (spacing loy hiy (length axis_0_3))
                          (length axis_0_3)
    /\ length pts = length axis_0_3 * length axis_0_3
    /\ (forall p, exists m,
           Np.reshape (contains_points Mpl.point_in_path p pts)
                      (length axis_0_3) (length axis_0_3) = Ok m)
    /\ (forall paths, exists m,
           rasterize Mpl.point_in_path axis_0_3 axis_0_3 paths = Ok m
           /\ Np.size m = length axis_0_3 * length axis_0_3).
Proof.
  apply (canvas_points_count Mpl.point_in_path axis_0_3 axis_0_3).
  - simpl; lia.
  - simpl; lia.
  - reflexivity.
  - reflexivity.
Defined.

(** ** The dimension table of a bundle *)

Lemma lookup_app_none {A} (k : string) (l1 l2 : list (string * A)) :
  Xr.lookup k l1 = None -> Xr.lookup k (l1 ++ l2) = Xr.lookup k l2.
Proof.
  induction l1 as [|[k' v] l1 IH]; simpl; [reflexivity|].
  destruct (String.eqb k k'); [discriminate | exact IH].
Qed.

Lemma lookup_not_in {A} (k : string) (l : list (string * A)) :
  existsb (String.eqb k) (map fst l) = false -> Xr.lookup k l = None.
Proof.
  induction l as [|[k' v] l IH]; simpl; [reflexivity|].
  destruct (String.eqb k k'); simpl; [discriminate | exact IH].
Qed.

Lemma lookup_nodup_in {A} (l : list (string * A)) (d : string) (n : A) :
  Xr.nodup_names (map fst l) = true -> In (d, n) l -> Xr.lookup d l = Some n.
Proof.
  induction l as [|[k v] l IH]; simpl; [contradiction|].
  intros Hnd [E|Hin].
  - injection E as -> ->. now rewrite String.eqb_refl.
  - apply andb_prop in Hnd. destruct Hnd as [Hk Hnd].
    destruct (String.eqb_spec d k) as [->|_]; [|now apply IH].
    apply negb_true_iff in Hk.
    rewrite (lookup_not_in k l Hk) in IH.
    specialize (IH Hnd Hin). discriminate.
Qed.

Lemma lookup_sizes (name : string) (l : list (string * list Q)) (v : list Q) :
  Xr.lookup name l = Some v ->
  Xr.lookup name (map (fun d => (fst d, length (snd d))) l) = Some (length v).
Proof.
  induction l as [|[k w] l IH]; simpl; [discriminate|].
  destruct (String.eqb name k); [|exact IH].
  intro H. injection H as ->. reflexivity.
Qed.

(** Dimensions met for the first time are appended to the table. *)
Lemma calculate_dimensions_fresh (l : list (string * nat)) :
  forall table rest,
    Xr.nodup_names (map fst l) = true ->
    (forall d, In d (map fst l) -> Xr.lookup d table = None) ->
    Xr.calculate_dimensions table (l ++ rest)
    = Xr.calculate_dimensions (table ++ l) rest.
Proof.
  induction l as [|[d n] l IH]; intros table rest Hnd Hfresh; simpl.
  - now rewrite app_nil_r.
  - rewrite (Hfresh d) by (left; reflexivity).
    simpl in Hnd. apply andb_prop in Hnd. destruct Hnd as [Hd Hnd].
    apply negb_true_iff in Hd.
    rewrite IH; [now rewrite <- app_assoc | exact Hnd |].
    intros d' Hin. rewrite lookup_app_none by (apply Hfresh; now right).
    simpl. destruct (String.eqb_spec d' d) as [->|_]; [|reflexivity].
    exfalso. apply in_map_iff in Hin. destruct Hin as ([k v] & Ek & Hin).
    simpl in Ek. subst k.
    assert (T : existsb (String.eqb d) (map fst l) = true).
    { apply existsb_exists. exists d. split; [|apply String.eqb_refl].
      apply in_map_iff. exists (d, v). now split. }
    congruence.
Qed.

(** Dimensions met again with the size on record leave the table as it
    is. *)
Lemma calculate_dimensions_known (l : list (string * nat)) :
  forall table rest,
    (forall d n, In (d, n) l -> Xr.lookup d table = Some n) ->
    Xr.calculate_dimensions table (l ++ rest)
    = Xr.calculate_dimensions table rest.
Proof.
  induction l as [|[d n] l IH]; intros table rest Hk; simpl; [reflexivity|].
  rewrite (Hk d n) by (left; reflexivity).
  rewrite Nat.eqb_refl. apply IH. intros d' n' Hin. apply Hk. now right.
Qed.

Lemma sizes_names (da : Xr.DataArray) :
  map fst (Xr.sizes da) = map fst (Xr.dims da).
Proof. unfold Xr.sizes. rewrite map_map. reflexivity. Qed.

Lemma coords_size (da : Xr.DataArray) (name : string) (v : list Q) :
  Xr.coords da name = Ok v -> Xr.lookup name (Xr.sizes da) = Some (length v).
Proof.
  unfold Xr.coords, Xr.sizes.
  destruct (Xr.lookup name (Xr.dims da)) as [w|] eqn:E; [|discriminate].
  intro H. injection H as ->. now apply lookup_sizes.
Qed.

(** C8.  For a field whose coordinate grid has the axes named [xcoord]
    and [ycoord], the merge step raises whenever the shape of the mask
    is not (len(y_axis), len(x_axis)), and otherwise returns the bundle
    that pairs the field, unchanged, with the mask under the dimension
    names (ycoord, xcoord). *)
Theorem combine_data_and_mask_shape_check
        (data_array : Xr.DataArray) (mask : Np.ndarray)
        (xcoord ycoord : string) (xs ys : list Q) :
  Xr.well_formed data_array = true ->
  Xr.coords data_array xcoord = Ok xs ->
  Xr.coords data_array ycoord = Ok ys ->
  combine_data_and_mask data_array mask xcoord ycoord
  = if (fst (Np.shape mask) =? length ys) && (snd (Np.shape mask) =? length xs)
    then Ok (Xr.mkDataset data_array ([ycoord; xcoord], mask)
                          (Xr.sizes data_array))
    else Raise (ValueError "conflicting sizes for dimension").
Proof.
  intros Hwf Hx Hy. unfold Xr.well_formed in Hwf.
  unfold combine_data_and_mask, Xr.Dataset_of.
  rewrite calculate_dimensions_fresh;
    [| now rewrite sizes_names | reflexivity].
  rewrite app_nil_l, calculate_dimensions_known.
  2:{ intros d n Hin. apply lookup_nodup_in; [now rewrite sizes_names | exact Hin]. }
  simpl. rewrite (coords_size _ _ _ Hy).
  destruct (fst (Np.shape mask) =? length ys); simpl; [|reflexivity].
  rewrite (coords_size _ _ _ Hx).
  destruct (snd (Np.shape mask) =? length xs); reflexivity.
Qed.

Lemma combine_data_and_mask_shape_check_witness :
  combine_data_and_mask field_3x2 (Np.zeros 2 3) "x" "y"
  = Ok (Xr.mkDataset field_3x2 (["y"; "x"]%string, Np.zeros 2 3)
                     (Xr.sizes field_3x2))
  /\ combine_data_and_mask field_3x2 (Np.zeros 3 2) "x" "y"
     = Raise (ValueError "conflicting sizes for dimension").
Proof.
  split.
  - apply (combine_data_and_mask_shape_check field_3x2 (Np.zeros 2 3)
             "x" "y" [0; 1; 2]%Q [0; 1]%Q); reflexivity.
  - apply (combine_data_and_mask_shape_check field_3x2 (Np.zeros 3 2)
             "x" "y" [0; 1; 2]%Q [0; 1]%Q); reflexivity.
Defined.

(** ** Sessions *)

(** C6 (the code departs from it).  Every session is meant to own a
    fresh, empty polygon list of its own.  In the code the list is the
    one class attribute: after a first session completes a gesture, a
    second session on another figure, which saw the empty list before,
    sees the new polygon, and a session constructed afterwards starts
    with that polygon in its list.  (A gesture without any vertex makes
    [Path] raise and adds nothing.) *)
Theorem paths_shared_between_sessions (verts : list point) :
  match verts with
  | [] => exists msg, fst (two_sessions verts fresh_store)
                      = Raise (ValueError msg)
  | _ :: _ => fst (two_sessions verts fresh_store)
              = Ok ([], [Mpl.MkPath verts], [Mpl.MkPath verts])
  end.
Proof. destruct verts; [eexists|]; reflexivity. Qed.



(** C9.  A press that arrives while the widget lock of the session's
    canvas is held, or that lies outside every axes, leaves the whole
    store as it was: no lasso is created, the lock keeps its owner and
    the polygon list is untouched. *)
Theorem onpress_ignored (self : nat) (event : Mpl.MouseEvent) (s : Store) :
  Mpl.locked (Mpl.widgetlock (canvases s (canvas (managers s self)))) = true
  \/ Mpl.inaxes event = None ->
  LassoManager.onpress self event s = (Ok tt, s)
  /\ lasso (managers (snd (LassoManager.onpress self event s)) self)
     = lasso (managers s self)
  /\ next_lasso (snd (LassoManager.onpress self event s)) = next_lasso s
  /\ Mpl.widgetlock (canvases (snd (LassoManager.onpress self event s))
                              (canvas (managers s self)))
     = Mpl.widgetlock (canvases s (canvas (managers s self)))
  /\ LassoManager_paths (snd (LassoManager.onpress self event s))
     = LassoManager_paths s.
Proof.
  intro H.
  assert (E : LassoManager.onpress self event s = (Ok tt, s)).
  { unfold LassoManager.onpress, mbind, gets, ret. simpl.
    destruct (Mpl.locked _) eqn:L; [reflexivity|].
    destruct H as [H|H]; [discriminate|]. rewrite H. reflexivity. }
  rewrite E. repeat split.
Qed.

Lemma onpress_ignored_witness :
  LassoManager.onpress 0 press_in_axes_0 store_mid_gesture
  = (Ok tt, store_mid_gesture)
  /\ LassoManager.onpress 0 press_outside fresh_store = (Ok tt, fresh_store).
Proof.
  split.
  - apply (onpress_ignored 0 press_in_axes_0 store_mid_gesture).
    left. reflexivity.
  - apply (onpress_ignored 0 press_outside fresh_store).
    right. reflexivity.
Defined.

(* ================================================================== *)
(** * Further properties of the module *)

(** ** get_variables and load_xarray *)

Lemma lookup_in_names {A} (k : string) (l : list (string * A)) :
  existsb (String.eqb k) (map fst l) = true ->
  exists v, Xr.lookup k l = Some v.
Proof.
  induction l as [|[k' v] l IH]; simpl; [discriminate|].
  destruct (String.eqb k k'); simpl; [eauto | exact IH].
Qed.

Lemma existsb_eqb_in (k : string) (l : list string) :
  existsb (String.eqb k) l = true <-> In k l.
Proof.
  rewrite existsb_exists. split.
  - intros (x & Hin & E). apply String.eqb_eq in E. now subst.
  - intro Hin. exists k. split; [exact Hin | apply String.eqb_refl].
Qed.

(** X1.  Every name that [get_variables] lists for a file can be
    loaded from it: [load_xarray] returns that variable of the dataset
    as a DataArray and prints nothing. *)
Theorem load_xarray_listed
        (open_dataset : string -> result NcDataset)
        (fname var : string) (names : list string) :
  get_variables open_dataset fname = Ok names ->
  In var names ->
  exists x da,
    open_dataset fname = Ok x
    /\ Xr.lookup var x = Some da
    /\ load_xarray open_dataset fname var = (Ok (LoadedArray da), []).
Proof.
  unfold load_xarray, get_variables.
  destruct (open_dataset fname) as [x|e]; simpl; [|discriminate].
  intros H Hin. injection H as <-.
  apply existsb_eqb_in in Hin. rewrite Hin.
  destruct (lookup_in_names var x Hin) as [da Hda].
  exists x, da. repeat split; try assumption.
  unfold getitem. rewrite Hda. reflexivity.
Qed.

Lemma load_xarray_listed_witness :
  exists x da,
    one_file "w.nc" = Ok x
    /\ Xr.lookup "w" x = Some da
    /\ load_xarray one_file "w.nc" "w" = (Ok (LoadedArray da), []).
Proof.
  apply (load_xarray_listed one_file "w.nc" "w" ["w"; "y"; "x"]%string).
  - reflexivity.
  - simpl. auto.
Defined.

(** X2.  A name that is not a variable of the file raises nothing:
    [load_xarray] returns the whole dataset and prints the two lines
    that say so. *)
Theorem load_xarray_missing_variable
        (open_dataset : string -> result NcDataset)
        (fname var : string) (x : NcDataset) :
  open_dataset fname = Ok x ->
  ~ In var (map fst x) ->
  load_xarray open_dataset fname var
  = (Ok (LoadedDataset x),
     [(var ++ " not in variables of " ++ fname)%string;
      "returning entire Dataset"%string]).
Proof.
  intros Hopen Hnot. unfold load_xarray, get_variables.
  rewrite Hopen. simpl.
  destruct (existsb (String.eqb var) (map fst x)) eqn:E; [|reflexivity].
  apply existsb_eqb_in in E. contradiction.
Qed.

Lemma load_xarray_missing_variable_witness :
  exists x,
    one_file "w.nc" = Ok x
    /\ load_xarray one_file "w.nc" "u"
       = (Ok (LoadedDataset x),
          ["u not in variables of w.nc"; "returning entire Dataset"]%string).
Proof.
  eexists. split; [reflexivity|].
  apply (load_xarray_missing_variable one_file "w.nc" "u").
  - reflexivity.
  - simpl. intros [H|[H|[H|[]]]]; discriminate.
Defined.

(** ** mask_create: coordinates and polygons *)

(** X3.  A field without the coordinate named [xcoord] makes
    [mask_create] raise [KeyError(xcoord)]; with [xcoord] present and
    [ycoord] absent it raises [KeyError(ycoord)].  Either way the store
    is left as it was. *)
Theorem mask_create_missing_coordinate
        (contains_point : Mpl.Path -> point -> bool)
        (data_array : Xr.DataArray) (proj : ccrs) (lman : nat)
        (xcoord ycoord : string) (s : Store) :
  Xr.lookup xcoord (Xr.dims data_array) = None
  \/ Xr.lookup ycoord (Xr.dims data_array) = None ->
  mask_create contains_point data_array proj lman xcoord ycoord s
  = (Raise (KeyError (match Xr.lookup xcoord (Xr.dims data_array) with
                      | None => xcoord
                      | Some _ => ycoord
                      end)), s).
Proof.
  intro H. unfold mask_create, mbind, lift, Xr.coords.
  destruct (Xr.lookup xcoord (Xr.dims data_array)) as [xs|]; [|reflexivity].
  destruct H as [H|H]; [discriminate|]. rewrite H. reflexivity.
Qed.

Lemma mask_create_missing_coordinate_witness :
  mask_create Mpl.point_in_path field_3x2 (Projection "p") 0
              "projection_x_coordinate" "projection_y_coordinate" fresh_store
  = (Raise (KeyError "projection_x_coordinate"), fresh_store)
  /\ mask_create Mpl.point_in_path field_3x2 (Projection "p") 0
                 "x" "projection_y_coordinate" fresh_store
     = (Raise (KeyError "projection_y_coordinate"), fresh_store).
Proof.
  split.
  - apply (mask_create_missing_coordinate Mpl.point_in_path field_3x2
             (Projection "p") 0
             "projection_x_coordinate" "projection_y_coordinate" fresh_store).
    left. reflexivity.
  - apply (mask_create_missing_coordinate Mpl.point_in_path field_3x2
             (Projection "p") 0 "x" "projection_y_coordinate" fresh_store).
    right. reflexivity.
Defined.

Lemma existsb_incl {A} (f : A -> bool) (l l' : list A) :
  incl l l' -> existsb f l = true -> existsb f l' = true.
Proof.
  intros Hincl H. apply existsb_exists in H. destruct H as (x & Hin & Hf).
  apply existsb_exists. exists x. split; [now apply Hincl | exact Hf].
Qed.

Lemma any_contains_same_set (contains_point : Mpl.Path -> point -> bool)
      (paths paths' : list Mpl.Path) (pts : list point) :
  incl paths paths' -> incl paths' paths ->
  any_contains contains_point paths pts = any_contains contains_point paths' pts.
Proof.
  intros H1 H2. unfold any_contains. apply map_ext. intro pt.
  destruct (existsb _ paths) eqn:E1.
  - symmetry. now apply (existsb_incl _ paths paths').
  - destruct (existsb _ paths') eqn:E2; [|reflexivity].
    apply (existsb_incl _ paths' paths) in E2; [congruence | exact H2].
Qed.

(** X4.  The mask depends on the polygon list only through the set
    of its polygons: two non-empty lists with the same members, in
    whatever order and however often repeated, give the same result. *)
Theorem rasterize_same_polygon_set
        (contains_point : Mpl.Path -> point -> bool)
        (xs ys : list Q) (paths paths' : list Mpl.Path) :
  paths <> [] -> paths' <> [] ->
  incl paths paths' -> incl paths' paths ->
  rasterize contains_point xs ys paths = rasterize contains_point xs ys paths'.
Proof.
  intros N N' H1 H2. rewrite !rasterize_eq. unfold Py.fmap.
  destruct (canvas_points xs ys) as [pts|e]; simpl; [|reflexivity].
  destruct paths as [|p paths]; [contradiction|].
  destruct paths' as [|p' paths']; [contradiction|].
  now rewrite (any_contains_same_set _ _ _ pts H1 H2).
Qed.

Lemma rasterize_same_polygon_set_witness :
  rasterize Mpl.point_in_path axis_0_3 axis_0_3 [unit_square; corner_square]
  = rasterize Mpl.point_in_path axis_0_3 axis_0_3
              [corner_square; unit_square; corner_square].
Proof.
  apply (rasterize_same_polygon_set Mpl.point_in_path axis_0_3 axis_0_3
           [unit_square; corner_square]
           [corner_square; unit_square; corner_square]).
  - discriminate.
  - discriminate.
  - intros a [<-|[<-|[]]]; simpl; auto.
  - intros a [<-|[<-|[<-|[]]]]; simpl; auto.
Defined.

(** X5.  Drawing more polygons never clears a cell: every cell that
    is true in the mask of a polygon list is true in the mask of the
    list extended by further polygons, and the two masks have the same
    shape. *)
Theorem rasterize_more_polygons
        (contains_point : Mpl.Path -> point -> bool)
        (xs ys : list Q) (paths more : list Mpl.Path) (m m' : Np.ndarray) :
  rasterize contains_point xs ys paths = Ok m ->
  rasterize contains_point xs ys (paths ++ more) = Ok m' ->
  Np.shape m' = Np.shape m
  /\ forall k, nth_error (Np.truth m) k = Some true ->
               nth_error (Np.truth m') k = Some true.
Proof.
  intros R R'.
  split.
  { rewrite (rasterize_shape _ _ _ _ _ R), (rasterize_shape _ _ _ _ _ R').
    reflexivity. }
  revert R R'. rewrite !rasterize_eq. unfold Py.fmap.
  destruct (canvas_points xs ys) as [pts|e] eqn:E; simpl; [|discriminate].
  intros R R'. injection R as <-. injection R' as <-.
  intros k Hk.
  assert (T : nth_error (any_contains contains_point paths pts) k = Some true).
  { destruct paths as [|p paths]; [|exact Hk].
    rewrite zeros_truth in Hk. apply nth_error_In, repeat_spec in Hk.
    discriminate. }
  assert (T' : nth_error (any_contains contains_point (paths ++ more) pts) k
               = Some true).
  { unfold any_contains in *. rewrite nth_error_map in *.
    destruct (nth_error pts k) as [pt|]; simpl in *; [|discriminate].
    injection T as T. rewrite existsb_app, T. reflexivity. }
  destruct (paths ++ more) eqn:A; [|exact T'].
  apply app_eq_nil in A. destruct A as [-> _].
  unfold any_contains in T. rewrite nth_error_map in T.
  destruct (nth_error pts k); simpl in T; discriminate.
Qed.

Lemma rasterize_more_polygons_witness :
  exists m m',
    rasterize Mpl.point_in_path axis_0_3 axis_0_3 [unit_square] = Ok m
    /\ rasterize Mpl.point_in_path axis_0_3 axis_0_3
                 ([unit_square] ++ [corner_square]) = Ok m'
    /\ Np.shape m' = Np.shape m
    /\ forall k, nth_error (Np.truth m) k = Some true ->
                 nth_error (Np.truth m') k = Some true.
Proof.
  do 2 eexists.
  assert (R : rasterize Mpl.point_in_path axis_0_3 axis_0_3 [unit_square]
              = Ok (Np.BoolArray (4, 4)
                      [false; false; false; false; false; true; false; false;
                       false; false; false; false; false; false; false; false]))
    by (vm_compute; reflexivity).
  assert (R' : rasterize Mpl.point_in_path axis_0_3 axis_0_3
                         ([unit_square] ++ [corner_square])
               = Ok (Np.BoolArray (4, 4)
                       [false; false; true; false; false; true; false; false;
                        false; false; false; false; false; false; false; false]))
    by (vm_compute; reflexivity).
  split; [exact R|]. split; [exact R'|].
  exact (rasterize_more_polygons Mpl.point_in_path axis_0_3 axis_0_3
           [unit_square] [corner_square] _ _ R R').
Defined.

(** X6.  Whenever [mask_create] returns, an empty polygon list
    gave the float array [np.zeros] and a non-empty one a boolean
    array, both with len(xs) rows and len(ys) columns. *)
Theorem rasterize_dtype
        (contains_point : Mpl.Path -> point -> bool)
        (xs ys : list Q) (paths : list Mpl.Path) (m : Np.ndarray) :
  rasterize contains_point xs ys paths = Ok m ->
  (paths = [] /\ m = Np.zeros (length xs) (length ys))
  \/ (paths <> [] /\ exists buf, m = Np.BoolArray (length xs, length ys) buf).
Proof.
  rewrite rasterize_eq. unfold Py.fmap.
  destruct (canvas_points xs ys) as [pts|e]; simpl; [|discriminate].
  intro H. injection H as <-.
  destruct paths as [|p paths]; [left; now split|].
  right. split; [discriminate | eauto].
Qed.

Lemma rasterize_dtype_witness :
  ([unit_square] = [] /\ Np.BoolArray (4, 4)
                      [false; false; false; false; false; true; false; false;
                       false; false; false; false; false; false; false; false]
                         = Np.zeros (length axis_0_3) (length axis_0_3))
  \/ ([unit_square] <> []
      /\ exists buf,
          Np.BoolArray (4, 4)
                      [false; false; false; false; false; true; false; false;
                       false; false; false; false; false; false; false; false]
          = Np.BoolArray (length axis_0_3, length axis_0_3) buf).
Proof.
  apply (rasterize_dtype Mpl.point_in_path axis_0_3 axis_0_3 [unit_square]).
  vm_compute. reflexivity.
Defined.

(** ** mask_create: which point a cell stands for *)

Lemma flat_map_rows_nth {A B C} (g : B -> A -> C) (row : list A) (xi : A)
      (i : nat) :
  nth_error row i = Some xi ->
  forall (ys : list B) (j : nat) (yj : B),
    nth_error ys j = Some yj ->
    nth_error (flat_map (fun y => map (g y) row) ys) (j * length row + i)
    = Some (g yj xi).
Proof.
  intros Hi ys. induction ys as [|y ys IH]; intros j yj Hj.
  - destruct j; discriminate.
  - assert (Li : i < length row) by (apply nth_error_Some; congruence).
    destruct j as [|j]; simpl in *.
    + injection Hj as ->.
      rewrite nth_error_app1 by (now rewrite length_map).
      now rewrite nth_error_map, Hi.
    + rewrite nth_error_app2 by (rewrite length_map; lia).
      rewrite length_map.
      replace (length row + j * length row + i - length row)
        with (j * length row + i) by lia.
      now apply IH.
Qed.

Lemma axis_grid_length (xv yv : list Q) :
  length (axis_grid xv yv) = length yv * length xv.
Proof.
  unfold axis_grid, point. induction yv as [|y yv IH]; simpl; [reflexivity|].
  rewrite length_app, length_map. f_equal. exact IH.
Qed.

(** The canvas is the mesh of the samples of the two axes, listed row
    by row with the x samples running fastest. *)
Lemma canvas_points_samples (xs ys xv yv : list Q) (pts : list point) :
  canvas_points xs ys = Ok pts ->
  axis_samples xs = Ok xv -> axis_samples ys = Ok yv ->
  pts = axis_grid xv yv.
Proof.
  unfold canvas_points, axis_samples.
  destruct (Py.max xs) as [maxx|]; simpl; [|discriminate].
  destruct (Py.min xs) as [minx|]; simpl; [|discriminate].
  destruct (Py.max ys) as [maxy|]; simpl; [|discriminate].
  destruct (Py.min ys) as [miny|]; simpl; [|discriminate].
  intros H Hx Hy. rewrite Hx, Hy in H. simpl in H. injection H as <-.
  apply meshgrid_points.
Qed.

Lemma canvas_points_has_samples (xs ys : list Q) (pts : list point) :
  canvas_points xs ys = Ok pts ->
  exists xv yv, axis_samples xs = Ok xv /\ axis_samples ys = Ok yv.
Proof.
  unfold canvas_points, axis_samples.
  destruct (Py.max xs) as [maxx|]; simpl; [|discriminate].
  destruct (Py.min xs) as [minx|]; simpl; [|discriminate].
  destruct (Py.max ys) as [maxy|]; simpl; [|discriminate].
  destruct (Py.min ys) as [miny|]; simpl; [|discriminate].
  destruct (Np.arange minx _ _) as [xv|]; simpl; [|discriminate].
  destruct (Np.arange miny _ _) as [yv|]; simpl; [|discriminate].
  eauto.
Qed.

(** A returned mask: its shape, and its truth values over the canvas. *)
Lemma rasterize_truth (contains_point : Mpl.Path -> point -> bool)
      (xs ys : list Q) (paths : list Mpl.Path) (m : Np.ndarray) :
  rasterize contains_point xs ys paths = Ok m ->
  exists pts,
    canvas_points xs ys = Ok pts
    /\ Np.shape m = (length xs, length ys)
    /\ Np.truth m = any_contains contains_point paths pts.
Proof.
  intro R. pose proof (rasterize_shape _ _ _ _ _ R) as S.
  revert R. rewrite rasterize_eq. unfold Py.fmap.
  destruct (canvas_points xs ys) as [pts|e] eqn:E; simpl; [|discriminate].
  intro R. injection R as <-. exists pts. repeat split; [exact S|].
  destruct paths as [|p paths]; [|reflexivity].
  rewrite zeros_truth. unfold any_contains. simpl.
  rewrite map_const_repeat. f_equal. symmetry.
  now apply canvas_points_length.
Qed.

(** The cell [m[r, c]] read through the samples of the two axes. *)
Lemma mask_cell_samples (contains_point : Mpl.Path -> point -> bool)
      (xs ys : list Q) (paths : list Mpl.Path) (m : Np.ndarray)
      (xv yv : list Q) (r c : nat) :
  rasterize contains_point xs ys paths = Ok m ->
  axis_samples xs = Ok xv -> axis_samples ys = Ok yv ->
  r < length xs -> c < length ys ->
  length xv * length yv = length xs * length ys
  /\ exists x y,
      nth_error xv ((r * length ys + c) mod length xv) = Some x
      /\ nth_error yv ((r * length ys + c) / length xv) = Some y
      /\ Np.item m r c
         = Some (existsb (fun p => contains_point p (x, y)) paths).
Proof.
  intros R Hx Hy Hr Hc.
  destruct (rasterize_truth _ _ _ _ _ R) as (pts & E & S & T).
  pose proof (canvas_points_length _ _ _ E) as L.
  pose proof (canvas_points_samples _ _ _ _ _ E Hx Hy) as G. subst pts.
  rewrite axis_grid_length in L.
  split; [lia|].
  set (k := r * length ys + c).
  assert (Hk : k < length yv * length xv) by (unfold k; nia).
  assert (Nx : length xv <> 0) by (intro Z; rewrite Z in Hk; lia).
  assert (Hi : k mod length xv < length xv) by (now apply Nat.mod_upper_bound).
  assert (Hj : k / length xv < length yv)
    by (apply Nat.Div0.div_lt_upper_bound; lia).
  destruct (nth_error xv (k mod length xv)) as [x|] eqn:Ex;
    [|apply nth_error_None in Ex; lia].
  destruct (nth_error yv (k / length xv)) as [y|] eqn:Ey;
    [|apply nth_error_None in Ey; lia].
  exists x, y. repeat split.
  unfold Np.item. rewrite S, T. cbn [fst snd].
  destruct (Nat.ltb_spec r (length xs)) as [_|]; [|lia].
  destruct (Nat.ltb_spec c (length ys)) as [_|]; [|lia].
  cbn [andb]. fold k. unfold any_contains. rewrite nth_error_map.
  rewrite (Nat.div_mod_eq k (length xv)) at 1.
  replace (length xv * (k / length xv) + k mod length xv)
    with (k / length xv * length xv + k mod length xv) by lia.
  unfold axis_grid, point.
  rewrite (flat_map_rows_nth (fun (y0 x0 : Q) => (x0, y0)) xv x _ Ex yv _ y Ey).
  reflexivity.
Qed.

(** X7.  Whenever [mask_create] returns a mask [m] for a non-empty
    polygon list, the cell [m[r, c]] is true exactly when some polygon
    contains the canvas point of flat index [k = r * len(ys) + c]: the
    point whose x is sample [k mod n] of the x-axis and whose y is
    sample [k / n] of the y-axis, [n] being the number of x samples
    that [np.arange] returned. *)
Theorem mask_cell
        (contains_point : Mpl.Path -> point -> bool)
        (xs ys : list Q) (paths : list Mpl.Path) (m : Np.ndarray)
        (xv yv : list Q) (r c : nat) :
  rasterize contains_point xs ys paths = Ok m ->
  axis_samples xs = Ok xv -> axis_samples ys = Ok yv ->
  paths <> [] ->
  r < length xs -> c < length ys ->
  exists x y,
    nth_error xv ((r * length ys + c) mod length xv) = Some x
    /\ nth_error yv ((r * length ys + c) / length xv) = Some y
    /\ Np.item m r c
       = Some (existsb (fun p => contains_point p (x, y)) paths).
Proof.
  intros R Hx Hy _ Hr Hc.
  exact (proj2 (mask_cell_samples _ _ _ _ _ _ _ _ _ R Hx Hy Hr Hc)).
Qed.

Lemma mask_cell_witness :
  exists xv yv,
    axis_samples [0; 1; 2]%Q = Ok xv
    /\ axis_samples [0; 1]%Q = Ok yv
    /\ exists x y,
        nth_error xv ((1 * length [0; 1]%Q + 0) mod length xv) = Some x
        /\ nth_error yv ((1 * length [0; 1]%Q + 0) / length xv) = Some y
        /\ Np.item (Np.BoolArray (3, 2)
                      [false; false; true; false; false; false]) 1 0
           = Some (existsb (fun p => Mpl.point_in_path p (x, y))
                           [corner_square]).
Proof.
  do 2 eexists.
  split; [vm_compute; reflexivity|].
  split; [vm_compute; reflexivity|].
  apply (mask_cell Mpl.point_in_path [0; 1; 2]%Q [0; 1]%Q [corner_square]).
  - vm_compute. reflexivity.
  - reflexivity.
  - reflexivity.
  - discriminate.
  - simpl. lia.
  - simpl. lia.
Defined.

(** X8.  On a grid with as many x values as y values, where
    [np.arange] returned one x sample per x value, the mask of a
    non-empty polygon list is laid out as the field is: [m[r, c]] is
    true exactly when some polygon contains the point made of x sample
    [c] and y sample [r]. *)
Theorem mask_cell_square
        (contains_point : Mpl.Path -> point -> bool)
        (xs ys : list Q) (paths : list Mpl.Path) (m : Np.ndarray)
        (xv yv : list Q) (r c : nat) :
  length xs = length ys ->
  rasterize contains_point xs ys paths = Ok m ->
  axis_samples xs = Ok xv -> axis_samples ys = Ok yv ->
  length xv = length xs ->
  paths <> [] ->
  r < length ys -> c < length xs ->
  exists x y,
    nth_error xv c = Some x
    /\ nth_error yv r = Some y
    /\ Np.item m r c
       = Some (existsb (fun p => contains_point p (x, y)) paths).
Proof.
  intros L R Hx Hy Lv _ Hr Hc.
  assert (Hr' : r < length xs) by lia.
  assert (Hc' : c < length ys) by lia.
  destruct (mask_cell_samples _ _ _ _ _ _ _ _ _ R Hx Hy Hr' Hc')
    as (_ & x & y & Ex & Ey & I).
  rewrite Lv, <- L in Ex, Ey.
  rewrite Nat.add_comm, Nat.Div0.mod_add, Nat.mod_small in Ex by exact Hc.
  rewrite Nat.add_comm, Nat.div_add, Nat.div_small in Ey by lia.
  exists x, y. repeat split; assumption.
Qed.

Lemma mask_cell_square_witness :
  exists xv yv,
    axis_samples axis_0_3 = Ok xv
    /\ axis_samples axis_0_3 = Ok yv
    /\ exists x y,
        nth_error xv 1 = Some x
        /\ nth_error yv 1 = Some y
        /\ Np.item (Np.BoolArray (4, 4)
                      [false; false; false; false; false; true; false; false;
                       false; false; false; false; false; false; false; false])
                   1 1
           = Some (existsb (fun p => Mpl.point_in_path p (x, y))
                           [unit_square]).
Proof.
  do 2 eexists.
  split; [vm_compute; reflexivity|].
  split; [vm_compute; reflexivity|].
  apply (mask_cell_square Mpl.point_in_path axis_0_3 axis_0_3 [unit_square]).
  - reflexivity.
  - vm_compute. reflexivity.
  - reflexivity.
  - reflexivity.
  - reflexivity.
  - discriminate.
  - simpl. lia.
  - simpl. lia.
Defined.

(** ** mask_create: what it reads of an axis *)

(** X9.  Of each axis [mask_create] uses the number of values,
    the smallest and the largest only: two pairs of axes that agree on
    these give the same result, whatever the values in between and
    whatever their order. *)
Theorem rasterize_axis_summary
        (contains_point : Mpl.Path -> point -> bool)
        (xs xs' ys ys' : list Q) (paths : list Mpl.Path) :
  length xs = length xs' -> Py.min xs = Py.min xs' -> Py.max xs = Py.max xs' ->
  length ys = length ys' -> Py.min ys = Py.min ys' -> Py.max ys = Py.max ys' ->
  rasterize contains_point xs ys paths = rasterize contains_point xs' ys' paths.
Proof.
  intros Lx Nx Mx Ly Ny My. rewrite !rasterize_eq.
  assert (E : canvas_points xs ys = canvas_points xs' ys').
  { unfold canvas_points. now rewrite Lx, Nx, Mx, Ly, Ny, My. }
  rewrite E, Lx, Ly. reflexivity.
Qed.

Lemma rasterize_axis_summary_witness :
  rasterize Mpl.point_in_path [0; 1; 10]%Q [0; 1; 2]%Q [unit_square]
  = rasterize Mpl.point_in_path [10; 5; 0]%Q [0; 2; 1]%Q [unit_square].
Proof.
  apply (rasterize_axis_summary Mpl.point_in_path
           [0; 1; 10]%Q [10; 5; 0]%Q [0; 1; 2]%Q [0; 2; 1]%Q [unit_square]);
    reflexivity.
Defined.

(** ** mask_create followed by combine_data_and_mask *)

(** The dimension check of the bundle, for a field that has both
    coordinates. *)
Lemma Dataset_of_check (data_array : Xr.DataArray) (mask : Np.ndarray)
      (xcoord ycoord : string) (xs ys : list Q) :
  Xr.well_formed data_array = true ->
  Xr.coords data_array xcoord = Ok xs ->
  Xr.coords data_array ycoord = Ok ys ->
  Xr.Dataset_of data_array [ycoord; xcoord] mask
  = if (fst (Np.shape mask) =? length ys) && (snd (Np.shape mask) =? length xs)
    then Ok (Xr.mkDataset data_array ([ycoord; xcoord], mask)
                          (Xr.sizes data_array))
    else Raise (ValueError "conflicting sizes for dimension").
Proof.
  intros Hwf Hx Hy. unfold Xr.well_formed in Hwf. unfold Xr.Dataset_of.
  rewrite calculate_dimensions_fresh;
    [| now rewrite sizes_names | reflexivity].
  rewrite app_nil_l, calculate_dimensions_known.
  2:{ intros d n Hin. apply lookup_nodup_in; [now rewrite sizes_names | exact Hin]. }
  simpl. rewrite (coords_size _ _ _ Hy).
  destruct (fst (Np.shape mask) =? length ys); simpl; [|reflexivity].
  rewrite (coords_size _ _ _ Hx).
  destruct (snd (Np.shape mask) =? length xs); reflexivity.
Qed.

(** X11.  The mask that [mask_create] returns for a field can be
    merged with that field exactly when the grid has as many x values
    as y values: then [combine_data_and_mask] returns the bundle, and
    on every other grid it raises. *)
Theorem combine_after_mask_create
        (contains_point : Mpl.Path -> point -> bool)
        (data_array : Xr.DataArray) (proj : ccrs) (lman : nat)
        (xcoord ycoord : string) (xs ys : list Q) (s : Store)
        (m : Np.ndarray) :
  Xr.well_formed data_array = true ->
  Xr.coords data_array xcoord = Ok xs ->
  Xr.coords data_array ycoord = Ok ys ->
  fst (mask_create contains_point data_array proj lman xcoord ycoord s) = Ok m ->
  combine_data_and_mask data_array m xcoord ycoord
  = if length xs =? length ys
    then Ok (Xr.mkDataset data_array ([ycoord; xcoord], m)
                          (Xr.sizes data_array))
    else Raise (ValueError "conflicting sizes for dimension").
Proof.
  intros Hwf Hx Hy R.
  rewrite (mask_create_rasterize _ _ _ _ _ _ _ _ _ Hx Hy) in R. simpl in R.
  unfold combine_data_and_mask.
  rewrite (Dataset_of_check _ _ _ _ _ _ Hwf Hx Hy).
  rewrite (rasterize_shape _ _ _ _ _ R). cbn [fst snd].
  destruct (Nat.eqb_spec (length xs) (length ys)) as [E|N].
  - rewrite E, Nat.eqb_refl. reflexivity.
  - destruct (Nat.eqb_spec (length xs) (length ys)); [contradiction|].
    reflexivity.
Qed.

Lemma combine_after_mask_create_witness :
  combine_data_and_mask field_3x2
    (Np.FloatArray (3, 2) [0; 0; 0; 0; 0; 0]%Q) "x" "y"
  = if length [0; 1; 2]%Q =? length [0; 1]%Q
    then Ok (Xr.mkDataset field_3x2
               (["y"; "x"]%string, Np.FloatArray (3, 2) [0; 0; 0; 0; 0; 0]%Q)
               (Xr.sizes field_3x2))
    else Raise (ValueError "conflicting sizes for dimension").
Proof.
  apply (combine_after_mask_create Mpl.point_in_path field_3x2
           (Projection "p") 0 "x" "y" [0; 1; 2]%Q [0; 1]%Q fresh_store).
  - reflexivity.
  - reflexivity.
  - reflexivity.
  - vm_compute. reflexivity.
Defined.

Lemma calculate_dimensions_two_new (table : list (string * nat))
      (d0 d1 : string) (n0 n1 : nat) :
  Xr.lookup d0 table = None -> Xr.lookup d1 table = None -> d0 <> d1 ->
  Xr.calculate_dimensions table [(d0, n0); (d1, n1)]
  = Ok (table ++ [(d0, n0); (d1, n1)]).
Proof.
  intros H0 H1 N. simpl. rewrite H0.
  rewrite lookup_app_none by exact H1. simpl.
  destruct (String.eqb_spec d1 d0) as [E|_]; [now subst|].
  now rewrite <- app_assoc.
Qed.

Lemma lookup_sizes_none (data_array : Xr.DataArray) (k : string) :
  Xr.lookup k (Xr.dims data_array) = None ->
  Xr.lookup k (Xr.sizes data_array) = None.
Proof.
  unfold Xr.sizes.
  induction (Xr.dims data_array) as [|[k' v] l IH]; simpl; [reflexivity|].
  destruct (String.eqb k k'); [discriminate | exact IH].
Qed.

(** X12.  Axis names that the field does not have switch the shape
    check off: with two distinct names that are not dimensions of the
    field, [combine_data_and_mask] accepts a mask of any shape and
    records its two axes as new dimensions. *)
Theorem combine_unknown_axis_names
        (data_array : Xr.DataArray) (mask : Np.ndarray)
        (xcoord ycoord : string) :
  Xr.well_formed data_array = true ->
  Xr.lookup xcoord (Xr.dims data_array) = None ->
  Xr.lookup ycoord (Xr.dims data_array) = None ->
  xcoord <> ycoord ->
  combine_data_and_mask data_array mask xcoord ycoord
  = Ok (Xr.mkDataset data_array ([ycoord; xcoord], mask)
          (Xr.sizes data_array
             ++ [(ycoord, fst (Np.shape mask)); (xcoord, snd (Np.shape mask))])).
Proof.
  intros Hwf Hx Hy N. unfold Xr.well_formed in Hwf.
  unfold combine_data_and_mask, Xr.Dataset_of.
  rewrite calculate_dimensions_fresh;
    [| now rewrite sizes_names | reflexivity].
  rewrite app_nil_l, calculate_dimensions_known.
  2:{ intros d n Hin. apply lookup_nodup_in; [now rewrite sizes_names | exact Hin]. }
  rewrite calculate_dimensions_two_new; auto using lookup_sizes_none.
Qed.

Lemma combine_unknown_axis_names_witness :
  combine_data_and_mask field_3x2 (Np.zeros 5 7) "lon" "lat"
  = Ok (Xr.mkDataset field_3x2 (["lat"; "lon"]%string, Np.zeros 5 7)
          (Xr.sizes field_3x2
             ++ [("lat"%string, fst (Np.shape (Np.zeros 5 7)));
                 ("lon"%string, snd (Np.shape (Np.zeros 5 7)))])).
Proof.
  apply (combine_unknown_axis_names field_3x2 (Np.zeros 5 7) "lon" "lat").
  - reflexivity.
  - reflexivity.
  - reflexivity.
  - discriminate.
Defined.

(** ** Sessions: one gesture *)

Ltac store_unfold :=
  unfold LassoManager.onpress, LassoManager.callback, LassoManager.__init__,
    LassoManager.paths, LassoManager.add_patch, LassoManager.add_collection,
    LassoManager.draw_idle, LassoManager.mpl_connect,
    LassoManager.set_lasso, LassoManager.set_widgetlock,
    new_manager, mbind, gets, ret, raise, lift, modify;
  cbn -[Nat.eqb LassoManager.Lasso_new].

Ltac store_fields :=
  unfold set_canvas, set_manager, set_axes, set_paths, upd; cbn -[Nat.eqb].

(** Creating a lasso: the new widget and two connection ids taken on
    the canvas of its axes; nothing else moves. *)
Lemma Lasso_new_effect (ax : nat) (xy : option Q * option Q) (self : nat)
      (s : Store) :
  exists s1,
    LassoManager.Lasso_new ax xy self s = (Ok (next_lasso s), s1)
    /\ LassoManager_paths s1 = LassoManager_paths s
    /\ managers s1 = managers s
    /\ next_lasso s1 = S (next_lasso s)
    /\ lassos s1 (next_lasso s) = Mpl.mkLasso ax xy self
    /\ (forall c, Mpl.widgetlock (canvases s1 c) = Mpl.widgetlock (canvases s c)).
Proof.
  eexists. split; [reflexivity|].
  unfold new_lasso, LassoManager.connect_event. store_fields.
  rewrite !Nat.eqb_refl. cbn -[Nat.eqb]. repeat split.
  intro c. destruct (Nat.eqb_spec c (Mpl.figure_canvas (all_axes s ax)))
    as [->|]; reflexivity.
Qed.

(** X13.  A press inside an axes while the widget lock of the
    session's canvas is free starts a gesture: a new lasso is created
    at the press position for that axes and that session, the session
    keeps it as [self.lasso], the lock is now held by it, and the
    polygon list is unchanged. *)
Theorem onpress_starts_gesture (self ax : nat) (event : Mpl.MouseEvent)
        (s : Store) :
  Mpl.widgetlock (canvases s (canvas (managers s self))) = None ->
  Mpl.inaxes event = Some ax ->
  let s' := snd (LassoManager.onpress self event s) in
  fst (LassoManager.onpress self event s) = Ok tt
  /\ next_lasso s' = S (next_lasso s)
  /\ lassos s' (next_lasso s)
     = Mpl.mkLasso ax (Mpl.xdata event, Mpl.ydata event) self
  /\ lasso (managers s' self) = Some (next_lasso s)
  /\ Mpl.widgetlock (canvases s' (canvas (managers s self)))
     = Some (next_lasso s)
  /\ LassoManager_paths s' = LassoManager_paths s.
Proof.
  intros L I. store_unfold. rewrite L. cbn -[Nat.eqb LassoManager.Lasso_new].
  rewrite I. cbn -[Nat.eqb LassoManager.Lasso_new].
  destruct (Lasso_new_effect ax (Mpl.xdata event, Mpl.ydata event) self s)
    as (s1 & E1 & P1 & M1 & N1 & L1 & W1).
  rewrite E1. store_fields. rewrite M1, W1, L. cbn -[Nat.eqb].
  rewrite !Nat.eqb_refl. repeat split; assumption.
Qed.

Lemma onpress_starts_gesture_witness :
  let s' := snd (LassoManager.onpress 0 press_in_axes_0 fresh_store) in
  fst (LassoManager.onpress 0 press_in_axes_0 fresh_store) = Ok tt
  /\ next_lasso s' = S (next_lasso fresh_store)
  /\ lassos s' (next_lasso fresh_store)
     = Mpl.mkLasso 0 (Mpl.xdata press_in_axes_0, Mpl.ydata press_in_axes_0) 0
  /\ lasso (managers s' 0) = Some (next_lasso fresh_store)
  /\ Mpl.widgetlock (canvases s' (canvas (managers fresh_store 0)))
     = Some (next_lasso fresh_store)
  /\ LassoManager_paths s' = LassoManager_paths fresh_store.
Proof.
  apply (onpress_starts_gesture 0 0 press_in_axes_0 fresh_store); reflexivity.
Defined.

(** X14.  When the session holds the lock with its lasso and the
    gesture traced at least one vertex, the callback completes the
    gesture without raising: the polygon of the traced vertices is
    appended to the polygon list, its outline is added to the axes, one
    redraw is requested, the lock is released and [self.lasso] is
    deleted. *)
Theorem callback_completes_gesture (self o : nat) (verts : list point)
        (s : Store) :
  verts <> [] ->
  lasso (managers s self) = Some o ->
  Mpl.widgetlock (canvases s (canvas (managers s self))) = Some o ->
  let s' := snd (LassoManager.callback self verts s) in
  fst (LassoManager.callback self verts s) = Ok tt
  /\ LassoManager_paths s' = LassoManager_paths s ++ [Mpl.MkPath verts]
  /\ Mpl.patches (all_axes s' (axes (managers s self)))
     = Mpl.patches (all_axes s (axes (managers s self)))
         ++ [Mpl.PathPatch (Mpl.MkPath verts)]
  /\ Mpl.draw_idle_requests (canvases s' (canvas (managers s self)))
     = S (Mpl.draw_idle_requests (canvases s (canvas (managers s self))))
  /\ Mpl.widgetlock (canvases s' (canvas (managers s self))) = None
  /\ lasso (managers s' self) = None.
Proof.
  intros V L W. destruct verts as [|v verts]; [contradiction|].
  store_unfold. rewrite L. store_fields.
  rewrite !Nat.eqb_refl. cbn -[Nat.eqb]. rewrite W.
  unfold Mpl.release, Mpl.available. cbn -[Nat.eqb].
  rewrite !Nat.eqb_refl. cbn -[Nat.eqb]. rewrite !Nat.eqb_refl.
  repeat split.
Qed.

Lemma callback_completes_gesture_witness :
  let s' := snd (LassoManager.callback 0 [(0, 0); (1, 0); (0, 1)]%Q
                                       store_mid_gesture) in
  fst (LassoManager.callback 0 [(0, 0); (1, 0); (0, 1)]%Q store_mid_gesture)
  = Ok tt
  /\ LassoManager_paths s'
     = LassoManager_paths store_mid_gesture
         ++ [Mpl.MkPath [(0, 0); (1, 0); (0, 1)]%Q]
  /\ Mpl.patches (all_axes s' (axes (managers store_mid_gesture 0)))
     = Mpl.patches (all_axes store_mid_gesture
                             (axes (managers store_mid_gesture 0)))
         ++ [Mpl.PathPatch (Mpl.MkPath [(0, 0); (1, 0); (0, 1)]%Q)]
  /\ Mpl.draw_idle_requests (canvases s' (canvas (managers store_mid_gesture 0)))
     = S (Mpl.draw_idle_requests
            (canvases store_mid_gesture (canvas (managers store_mid_gesture 0))))
  /\ Mpl.widgetlock (canvases s' (canvas (managers store_mid_gesture 0))) = None
  /\ lasso (managers s' 0) = None.
Proof.
  apply (callback_completes_gesture 0 0 [(0, 0); (1, 0); (0, 1)]%Q
                                    store_mid_gesture);
    [discriminate | reflexivity | reflexivity].
Defined.

(** X15.  A callback with at least one vertex on a session that has no
    [self.lasso] raises [AttributeError], but only after the polygon
    was appended to the polygon list, its outline added and a redraw
    requested; the widget lock is not touched. *)
Theorem callback_without_gesture (self : nat) (verts : list point) (s : Store) :
  verts <> [] ->
  lasso (managers s self) = None ->
  let s' := snd (LassoManager.callback self verts s) in
  fst (LassoManager.callback self verts s) = Raise (AttributeError "lasso")
  /\ LassoManager_paths s' = LassoManager_paths s ++ [Mpl.MkPath verts]
  /\ Mpl.patches (all_axes s' (axes (managers s self)))
     = Mpl.patches (all_axes s (axes (managers s self)))
         ++ [Mpl.PathPatch (Mpl.MkPath verts)]
  /\ Mpl.draw_idle_requests (canvases s' (canvas (managers s self)))
     = S (Mpl.draw_idle_requests (canvases s (canvas (managers s self))))
  /\ (forall c, Mpl.widgetlock (canvases s' c) = Mpl.widgetlock (canvases s c)).
Proof.
  intros V L. destruct verts as [|v verts]; [contradiction|].
  store_unfold. rewrite L. store_fields.
  rewrite !Nat.eqb_refl. repeat split.
  intro c. destruct (c =? canvas (managers s self)) eqn:E; [|reflexivity].
  apply Nat.eqb_eq in E. now subst.
Qed.

Lemma callback_without_gesture_witness :
  let s' := snd (LassoManager.callback 0 [(0, 0); (1, 0); (0, 1)]%Q fresh_store) in
  fst (LassoManager.callback 0 [(0, 0); (1, 0); (0, 1)]%Q fresh_store)
  = Raise (AttributeError "lasso")
  /\ LassoManager_paths s'
     = LassoManager_paths fresh_store ++ [Mpl.MkPath [(0, 0); (1, 0); (0, 1)]%Q]
  /\ Mpl.patches (all_axes s' (axes (managers fresh_store 0)))
     = Mpl.patches (all_axes fresh_store (axes (managers fresh_store 0)))
         ++ [Mpl.PathPatch (Mpl.MkPath [(0, 0); (1, 0); (0, 1)]%Q)]
  /\ Mpl.draw_idle_requests (canvases s' (canvas (managers fresh_store 0)))
     = S (Mpl.draw_idle_requests
            (canvases fresh_store (canvas (managers fresh_store 0))))
  /\ (forall c, Mpl.widgetlock (canvases s' c)
                = Mpl.widgetlock (canvases fresh_store c)).
Proof.
  apply (callback_without_gesture 0 [(0, 0); (1, 0); (0, 1)]%Q fresh_store);
    [discriminate | reflexivity].
Defined.

(** X21.  A callback without any vertex raises the ValueError of
    [Path] on its first line and changes nothing: no polygon is
    appended, and a widget lock that the session holds stays held. *)
Theorem callback_no_vertices (self : nat) (s : Store) :
  exists msg,
    LassoManager.callback self [] s = (Raise (ValueError msg), s).
Proof. eexists. reflexivity. Qed.

(** ** Sessions: event sequences *)

Lemma init_effect (ax : nat) (data : list point) (s : Store) :
  let s' := snd (LassoManager.__init__ ax data s) in
  LassoManager_paths s' = LassoManager_paths s
  /\ next_lasso s' = next_lasso s
  /\ (forall c, Mpl.widgetlock (canvases s' c) = Mpl.widgetlock (canvases s c))
  /\ (forall k, k <> next_manager s -> managers s' k = managers s k)
  /\ lasso (managers s' (next_manager s)) = None.
Proof.
  store_unfold. store_fields. repeat split.
  - intro c. destruct (c =? Mpl.figure_canvas (all_axes s ax)) eqn:E;
      [|reflexivity].
    apply Nat.eqb_eq in E. now subst.
  - intros k N. destruct (Nat.eqb_spec k (next_manager s)); [contradiction|].
    reflexivity.
  - now rewrite Nat.eqb_refl.
Qed.

Lemma onpress_effect (self : nat) (event : Mpl.MouseEvent) (s : Store) :
  let s' := snd (LassoManager.onpress self event s) in
  let cv := canvas (managers s self) in
  s' = s
  \/ (Mpl.widgetlock (canvases s cv) = None
      /\ LassoManager_paths s' = LassoManager_paths s
      /\ next_lasso s' = S (next_lasso s)
      /\ (forall k, lasso (managers s' k)
                    = if k =? self then Some (next_lasso s)
                      else lasso (managers s k))
      /\ (forall k, canvas (managers s' k) = canvas (managers s k))
      /\ (forall c, Mpl.widgetlock (canvases s' c)
                    = if c =? cv then Some (next_lasso s)
                      else Mpl.widgetlock (canvases s c))).
Proof.
  store_unfold.
  destruct (Mpl.widgetlock (canvases s (canvas (managers s self)))) as [w|] eqn:L;
    cbn -[Nat.eqb LassoManager.Lasso_new]; [now left|].
  destruct (Mpl.inaxes event) as [ax|]; cbn -[Nat.eqb LassoManager.Lasso_new];
    [|now left].
  right.
  destruct (Lasso_new_effect ax (Mpl.xdata event, Mpl.ydata event) self s)
    as (s1 & E1 & P1 & M1 & N1 & L1 & W1).
  rewrite E1. store_fields. rewrite M1, W1, L. cbn -[Nat.eqb].
  repeat split; try assumption.
  - intro k. destruct (k =? self); reflexivity.
  - intro k. destruct (Nat.eqb_spec k self) as [->|]; reflexivity.
  - intro c. destruct (c =? canvas (managers s self)); [reflexivity | apply W1].
Qed.

Lemma callback_effect (self : nat) (verts : list point) (s : Store) :
  let s' := snd (LassoManager.callback self verts s) in
  let cv := canvas (managers s self) in
  LassoManager_paths s'
  = LassoManager_paths s ++ drawn [Release self verts]
  /\ next_lasso s' = next_lasso s
  /\ (forall k, canvas (managers s' k) = canvas (managers s k))
  /\ (((forall k, lasso (managers s' k) = lasso (managers s k))
       /\ (forall c, Mpl.widgetlock (canvases s' c)
                     = Mpl.widgetlock (canvases s c)))
      \/ ((exists o, lasso (managers s self) = Some o
                     /\ Mpl.available (Mpl.widgetlock (canvases s cv)) o = true)
          /\ (forall k, lasso (managers s' k)
                        = if k =? self then None else lasso (managers s k))
          /\ (forall c, Mpl.widgetlock (canvases s' c)
                        = if c =? cv then None
                          else Mpl.widgetlock (canvases s c)))).
Proof.
  assert (F : forall (c cv : nat) (f : nat -> Mpl.Canvas) (v : Mpl.Canvas),
             Mpl.widgetlock v = Mpl.widgetlock (f cv) ->
             Mpl.widgetlock (if c =? cv then v else f c) = Mpl.widgetlock (f c)).
  { intros c cv f v H. destruct (Nat.eqb_spec c cv) as [->|]; auto. }
  destruct verts as [|v verts].
  { cbn. rewrite app_nil_r. repeat split. left. split; reflexivity. }
  store_unfold.
  destruct (lasso (managers s self)) as [o|] eqn:L; store_fields.
  - rewrite !Nat.eqb_refl. cbn -[Nat.eqb]. unfold Mpl.release.
    destruct (Mpl.available _ o) eqn:A; cbn -[Nat.eqb].
    + repeat split.
      * intro k. destruct (Nat.eqb_spec k self) as [->|]; reflexivity.
      * right. split; [eauto|]. split.
        -- intro k. destruct (k =? self); reflexivity.
        -- intro c. destruct (c =? canvas (managers s self)); reflexivity.
    + repeat split. left. split; [reflexivity|].
      intro c. apply F. reflexivity.
  - repeat split. left. split; [reflexivity|].
    intro c. apply F. reflexivity.
Qed.

Lemma handle_paths (e : Event) (s : Store) :
  LassoManager_paths (handle e s) = LassoManager_paths s ++ drawn [e].
Proof.
  destruct e as [ax data|self event|self verts]; unfold handle.
  - cbn [drawn flat_map app]. rewrite app_nil_r.
    exact (proj1 (init_effect ax data s)).
  - cbn [drawn flat_map app]. rewrite app_nil_r.
    destruct (onpress_effect self event s) as [->|(_ & P & _)]; auto.
  - exact (proj1 (callback_effect self verts s)).
Qed.

Lemma drawn_app (l l' : list Event) :
  drawn (l ++ l') = drawn l ++ drawn l'.
Proof. unfold drawn. apply flat_map_app. Qed.

Lemma released_app (l l' : list Event) :
  released (l ++ l') = released l ++ released l'.
Proof. unfold released. apply flat_map_app. Qed.

Lemma released_nil_drawn_nil (l : list Event) :
  released l = [] -> drawn l = [].
Proof.
  induction l as [|e l IH]; [reflexivity|].
  change (e :: l) with ([e] ++ l). rewrite released_app, drawn_app.
  intro H. apply app_eq_nil in H. destruct H as [He Hl].
  rewrite (IH Hl), app_nil_r.
  destruct e; [reflexivity | reflexivity | discriminate].
Qed.

Lemma run_app (l l' : list Event) (s : Store) :
  run (l ++ l') s = run l' (run l s).
Proof. unfold run. apply fold_left_app. Qed.

Lemma run_paths_drawn (events : list Event) (s : Store) :
  LassoManager_paths (run events s) = LassoManager_paths s ++ drawn events.
Proof.
  revert s. induction events as [|e events IH]; intro s.
  - simpl. now rewrite app_nil_r.
  - change (run (e :: events) s) with (run events (handle e s)).
    rewrite IH, handle_paths.
    change (e :: events) with ([e] ++ events).
    now rewrite drawn_app, app_assoc.
Qed.

(** X16.  The polygon list only grows, and by the releases alone:
    after any sequence of constructions, presses and releases, on any
    sessions, it is the list before followed by one polygon per release
    that traced at least one vertex, in the order of the releases (also
    for a release whose callback then raised for want of a lasso); a
    release without any vertex adds nothing. *)
Theorem run_paths (events : list Event) (s : Store) :
  LassoManager_paths (run events s) = LassoManager_paths s ++ drawn events
  /\ length (LassoManager_paths s) <= length (LassoManager_paths (run events s))
  /\ firstn (length (LassoManager_paths s)) (LassoManager_paths (run events s))
     = LassoManager_paths s.
Proof.
  rewrite run_paths_drawn. repeat split.
  - rewrite length_app. lia.
  - rewrite firstn_app, Nat.sub_diag, firstn_all. simpl. apply app_nil_r.
Qed.

(** X17.  The mask computed after an interactive session covers the
    polygons that the releases of all sessions of the process added,
    in order, whichever session is handed to [mask_create]. *)
Theorem mask_create_after_events
        (contains_point : Mpl.Path -> point -> bool)
        (events : list Event) (data_array : Xr.DataArray) (proj : ccrs)
        (lman : nat) (xcoord ycoord : string) (xs ys : list Q) :
  Xr.coords data_array xcoord = Ok xs ->
  Xr.coords data_array ycoord = Ok ys ->
  fst (mask_create contains_point data_array proj lman xcoord ycoord
                   (run events fresh_store))
  = rasterize contains_point xs ys (drawn events).
Proof.
  intros Hx Hy.
  rewrite (mask_create_rasterize _ _ _ _ _ _ _ _ _ Hx Hy).
  cbn [fst]. now rewrite run_paths_drawn.
Qed.

Lemma mask_create_after_events_witness :
  fst (mask_create Mpl.point_in_path field_3x2 (Projection "p") 1 "x" "y"
         (run [Construct 0 []; Construct 1 []; Press 0 press_in_axes_0;
               Release 0 [(3#2, -1#2); (5#2, -1#2); (5#2, 1#2); (3#2, 1#2)]%Q;
               Release 1 []]
              fresh_store))
  = rasterize Mpl.point_in_path [0; 1; 2]%Q [0; 1]%Q
      (drawn [Construct 0 []; Construct 1 []; Press 0 press_in_axes_0;
              Release 0 [(3#2, -1#2); (5#2, -1#2); (5#2, 1#2); (3#2, 1#2)]%Q;
              Release 1 []]).
Proof.
  apply (mask_create_after_events Mpl.point_in_path); reflexivity.
Defined.

(** ** Sessions: the widget lock *)






Lemma handle_keeps_lock (e : Event) (s : Store) (cv o : nat) :
  released [e] = [] ->
  Mpl.widgetlock (canvases s cv) = Some o ->
  Mpl.widgetlock (canvases (handle e s) cv) = Some o.
Proof.
  intros N W. destruct e as [ax data|self event|self verts]; unfold handle.
  - destruct (init_effect ax data s) as (_ & _ & Wi & _). now rewrite Wi.
  - destruct (onpress_effect self event s)
      as [->|(Free & _ & _ & _ & _ & Wp)]; [exact W|].
    rewrite Wp.
    destruct (Nat.eqb_spec cv (canvas (managers s self))) as [E|_]; [|exact W].
    subst cv. congruence.
  - discriminate.
Qed.

Lemma onpress_locked (self : nat) (event : Mpl.MouseEvent) (s : Store) (o : nat) :
  Mpl.widgetlock (canvases s (canvas (managers s self))) = Some o ->
  LassoManager.onpress self event s = (Ok tt, s).
Proof. intro W. store_unfold. rewrite W. reflexivity. Qed.

(** X19.  Only a release frees the widget lock: while no callback
    runs (as when the lasso ends without calling back), any sequence of
    constructions and presses leaves a held lock with its owner, adds
    no polygon, and every press on a session of that canvas is
    ignored. *)
Theorem lock_held_without_release (events : list Event) (s : Store)
        (cv o : nat) :
  released events = [] ->
  Mpl.widgetlock (canvases s cv) = Some o ->
  let s' := run events s in
  Mpl.widgetlock (canvases s' cv) = Some o
  /\ LassoManager_paths s' = LassoManager_paths s
  /\ (forall self event,
         canvas (managers s' self) = cv ->
         LassoManager.onpress self event s' = (Ok tt, s')).
Proof.
  intros N W s'.
  assert (K : Mpl.widgetlock (canvases s' cv) = Some o).
  { unfold s'. clear s'. revert s W N.
    induction events as [|e events IH]; intros s W N; [exact W|].
    change (e :: events) with ([e] ++ events) in N.
    rewrite released_app in N. apply app_eq_nil in N. destruct N as [Ne N].
    change (run ([e] ++ events) s) with (run events (handle e s)).
    apply IH; [|exact N]. now apply handle_keeps_lock. }
  repeat split.
  - exact K.
  - unfold s'. rewrite run_paths_drawn, (released_nil_drawn_nil _ N).
    apply app_nil_r.
  - intros self event E. apply (onpress_locked self event s' o).
    now rewrite E.
Qed.

Lemma lock_held_without_release_witness :
  let s' := run [Press 0 press_in_axes_0; Construct 1 []; Press 0 press_outside]
                store_mid_gesture in
  Mpl.widgetlock (canvases s' 0) = Some 0
  /\ LassoManager_paths s' = LassoManager_paths store_mid_gesture
  /\ (forall self event,
         canvas (managers s' self) = 0 ->
         LassoManager.onpress self event s' = (Ok tt, s')).
Proof.
  apply (lock_held_without_release
           [Press 0 press_in_axes_0; Construct 1 []; Press 0 press_outside]
           store_mid_gesture 0 0); reflexivity.
Defined.

(** X20.  Constructing a session returns a new identity, records the
    session with no gesture in progress on the canvas of its axes,
    connects its press handler after those already connected, keeps as
    [cid] the connection id that the callback registry of that canvas
    hands out next, and adds its collection to the axes; every session
    that existed, the polygon list and every widget lock are left as
    they were. *)
Theorem init_registers_session (ax : nat) (data : list point) (s : Store) :
  let s' := snd (LassoManager.__init__ ax data s) in
  let cv := Mpl.figure_canvas (all_axes s ax) in
  fst (LassoManager.__init__ ax data s) = Ok (next_manager s)
  /\ next_manager s' = S (next_manager s)
  /\ managers s' (next_manager s)
     = mkManager ax cv data (length data) Mpl.RegularPolyCollection
                 (Mpl.next_cid (canvases s cv)) None
  /\ Mpl.next_cid (canvases s' cv) = S (Mpl.next_cid (canvases s cv))
  /\ Mpl.press_handlers (canvases s' cv)
     = Mpl.press_handlers (canvases s cv) ++ [next_manager s]
  /\ Mpl.collections (all_axes s' ax)
     = Mpl.collections (all_axes s ax) ++ [Mpl.RegularPolyCollection]
  /\ (forall k, k <> next_manager s -> managers s' k = managers s k)
  /\ LassoManager_paths s' = LassoManager_paths s
  /\ (forall c, Mpl.widgetlock (canvases s' c) = Mpl.widgetlock (canvases s c)).
Proof.
  store_unfold. store_fields. rewrite !Nat.eqb_refl. repeat split.
  - intros k N. destruct (Nat.eqb_spec k (next_manager s)); [contradiction|].
    reflexivity.
  - intro c. destruct (Nat.eqb_spec c (Mpl.figure_canvas (all_axes s ax)))
      as [->|]; reflexivity.
Qed.
